(** * node-usbmuxd: a shallow embedding of [src/usbmuxd.ts]

    The client library keeps four pieces of module-level state (the protocol
    version, the tag counter, the subscription registry and the device
    directory) and talks to the usbmuxd daemon over a local socket.  This file
    embeds the functions of [usbmuxd.ts], [usbmuxd_proto.ts] and
    [private/type_guard.ts] as Rocq functions over an explicit record of the
    module-level variables, and proves the properties of the written
    specification about them.

    Conventions.
    - A JavaScript [number] that is not [NaN] is represented by its integer
      value; the code only applies [typeof], [isNaN], [==] and [++] to the
      numbers it handles.
    - A byte is an integer in [0, 255]; [ArrayBuffer] and [Uint8Array] are
      lists of bytes.
    - An object that is only compared by identity (a subscription handle, a
      callback) is represented by a natural number; [{}] allocates the next
      unused one.
    - An asynchronous function is run to completion on a script of what the
      runtime reports (connections, writes, arriving data); a promise that is
      never settled is [Pending], and a call that ends with an exception
      nothing catches is [Unhandled]. *)

From stdpp Require Import gmap strings list pretty.
From Stdlib Require Import ZArith Lia Sorted.

Set Warnings "-register-all".
Set Default Proof Using "Type".
Open Scope Z_scope.

(* ================================================================== *)
(** ** JavaScript values handled by the library *)

(** A value of type [number]. *)
Inductive number : Type :=
| Num (z : Z)
| NaN.

Abbreviation ArrayBuffer := (list Z).
Abbreviation Uint8Array := (list Z).

(** The values the [plist] package hands back from [plist.parse]
    ([PlistValue] of its type declarations).  A [<data>] element is a
    [Buffer], which is a [Uint8Array]. *)
Inductive PlistValue : Type :=
| PlistString (s : string)
| PlistNumber (n : number)
| PlistBoolean (b : bool)
| PlistDate (t : Z)
| PlistBuffer (bytes : Uint8Array)
| PlistArray (l : list PlistValue)
| PlistDict (o : gmap string PlistValue).

Abbreviation PlistObject := (gmap string PlistValue).

(** [plistdev as PlistObject]: the cast does nothing at run time; reading a
    property of a value that is not a mapping yields [undefined], as reading
    a key the mapping does not have. *)
Definition as_PlistObject (v : PlistValue) : PlistObject :=
  match v with
  | PlistDict o => o
  | _ => ∅
  end.

(* ------------------------------------------------------------------ *)
(** *** private/type_guard.ts

    The guards take the result of a property read: [None] is [undefined]. *)

Definition isNumber (x : option PlistValue) : bool :=
  match x with
  | Some (PlistNumber (Num _)) => true
  | _ => false
  end.

Definition isString (x : option PlistValue) : bool :=
  match x with
  | Some (PlistString _) => true
  | _ => false
  end.

(** [x instanceof Uint8Array] *)
Definition instanceof_Uint8Array (x : option PlistValue) : bool :=
  match x with
  | Some (PlistBuffer _) => true
  | _ => false
  end.

(** [x === s] and [x == s] for a string literal [s]: on the values above the
    two agree (no value other than the string itself is loosely equal to
    ["USB"] or ["Network"]). *)
Definition eq_string_literal (x : option PlistValue) (s : string) : bool :=
  match x with
  | Some (PlistString t) => bool_decide (t = s)
  | _ => false
  end.

(* ================================================================== *)
(** ** usbmuxd_proto.ts *)

Inductive usbmuxd_result : Type :=
| RESULT_OK
| RESULT_BADCOMMAND
| RESULT_BADDEV
| RESULT_CONNREFUSED
| RESULT_BADVERSION.

Definition usbmuxd_result_value (r : usbmuxd_result) : Z :=
  match r with
  | RESULT_OK => 0
  | RESULT_BADCOMMAND => 1
  | RESULT_BADDEV => 2
  | RESULT_CONNREFUSED => 3
  | RESULT_BADVERSION => 6
  end.

Inductive usbmuxd_msgtype : Type :=
| MESSAGE_RESULT
| MESSAGE_CONNECT
| MESSAGE_LISTEN
| MESSAGE_DEVICE_ADD
| MESSAGE_DEVICE_REMOVE
| MESSAGE_DEVICE_PAIRED
| MESSAGE_PLIST.

Definition usbmuxd_msgtype_value (m : usbmuxd_msgtype) : Z :=
  match m with
  | MESSAGE_RESULT => 1
  | MESSAGE_CONNECT => 2
  | MESSAGE_LISTEN => 3
  | MESSAGE_DEVICE_ADD => 4
  | MESSAGE_DEVICE_REMOVE => 5
  | MESSAGE_DEVICE_PAIRED => 6
  | MESSAGE_PLIST => 8
  end.

(** [interface usbmuxd_header]: four numbers. *)
Record usbmuxd_header : Type := mk_header {
  length_ : Z;   (* length of message, including header *)
  version : Z;   (* protocol version *)
  message : Z;   (* usbmuxd_msgtype *)
  tag : Z;       (* responses to this query will echo back this tag *)
}.

(* ================================================================== *)
(** ** usbmuxd.ts: public types *)

Inductive usbmux_connection_type : Type :=
| CONNECTION_TYPE_USB
| CONNECTION_TYPE_NETWORK.

Record usbmuxd_device_info_t : Type := mk_device {
  handle : Z;
  product_id : Z;
  udid : string;
  conn_type : usbmux_connection_type;
  conn_data : Uint8Array;
}.

Inductive usbmuxd_event_type : Type :=
| UE_DEVICE_ADD
| UE_DEVICE_REMOVE
| UE_DEVICE_PAIRED.

#[global] Instance usbmuxd_event_type_eq_dec : EqDecision usbmuxd_event_type.
Proof. solve_decision. Defined.

Record usbmuxd_event_t : Type := mk_event {
  event : usbmuxd_event_type;
  device : usbmuxd_device_info_t;
}.

(* ------------------------------------------------------------------ *)
(** *** device_info_from_plist *)

(** The numeric value behind [DeviceID as number]; only read after the
    guards have passed. *)
Definition as_number (x : option PlistValue) : Z :=
  match x with
  | Some (PlistNumber (Num z)) => z
  | _ => 0
  end.

Definition as_string (x : option PlistValue) : string :=
  match x with
  | Some (PlistString s) => s
  | _ => ""%string
  end.

Definition as_Uint8Array (x : option PlistValue) : Uint8Array :=
  match x with
  | Some (PlistBuffer b) => b
  | _ => []
  end.

(** The function sets [success = false] at each failed test (and logs) and
    returns [undefined] at the end if any of them failed. *)
Definition device_info_from_plist (props : PlistObject)
  : option usbmuxd_device_info_t :=
  let DeviceID := props !! "DeviceID"%string in
  let ProductID := props !! "ProductID"%string in
  let SerialNumber := props !! "SerialNumber"%string in
  let ConnectionType := props !! "ConnectionType"%string in
  let NetworkAddress := props !! "NetworkAddress"%string in
  let success := true in
  let success := if negb (isNumber DeviceID) then false else success in
  let success := if negb (isNumber ProductID) then false else success in
  let success := if negb (isString SerialNumber) then false else success in
  let success :=
    if negb (eq_string_literal ConnectionType "USB")
       && negb (eq_string_literal ConnectionType "Network")
    then false else success in
  let success :=
    if eq_string_literal ConnectionType "Network"
       && negb (instanceof_Uint8Array NetworkAddress)
    then false else success in
  if negb success then None
  else Some {|
    handle := as_number DeviceID;
    product_id := as_number ProductID;
    udid := as_string SerialNumber;
    conn_type :=
      if eq_string_literal ConnectionType "Network"
      then CONNECTION_TYPE_NETWORK else CONNECTION_TYPE_USB;
    conn_data :=
      if eq_string_literal ConnectionType "Network"
      then as_Uint8Array NetworkAddress else [];
  |}.

(** What the specification asks of a device record, written out: the five
    properties, their types, and the device they describe. *)
Inductive accepted_record (props : PlistObject)
  : usbmuxd_device_info_t → Prop :=
| accepted_usb (id pid : Z) (serial : string) :
    props !! "DeviceID"%string = Some (PlistNumber (Num id)) →
    props !! "ProductID"%string = Some (PlistNumber (Num pid)) →
    props !! "SerialNumber"%string = Some (PlistString serial) →
    props !! "ConnectionType"%string = Some (PlistString "USB") →
    accepted_record props (mk_device id pid serial CONNECTION_TYPE_USB [])
| accepted_network (id pid : Z) (serial : string) (addr : Uint8Array) :
    props !! "DeviceID"%string = Some (PlistNumber (Num id)) →
    props !! "ProductID"%string = Some (PlistNumber (Num pid)) →
    props !! "SerialNumber"%string = Some (PlistString serial) →
    props !! "ConnectionType"%string = Some (PlistString "Network") →
    props !! "NetworkAddress"%string = Some (PlistBuffer addr) →
    accepted_record props
      (mk_device id pid serial CONNECTION_TYPE_NETWORK addr).

(* ================================================================== *)
(** ** The XML documents handed to [plist.parse]

    [plist] is a package the library imports; its sources are not part of
    this repository.  [create_plist_message] writes an XML document as a
    template literal and has the package parse it, so the value it returns is
    decided by the package's [parse] and [parsePlistXML] (lib/parse.js).  The
    definitions of this block follow that file for the node kinds the
    template contains and for the two containers; the other node kinds are
    left out ([None]). *)

(** A DOM node: an element with its [childNodes], or a text node. *)
Inductive xml_node : Type :=
| xml_element (nodeName : string) (childNodes : list xml_node)
| xml_text (nodeValue : string).

Definition nodeName_of (node : xml_node) : string :=
  match node with
  | xml_element name _ => name
  | xml_text _ => "#text"%string
  end.

(** [shouldIgnoreNode]: text (and comment, CDATA) children are skipped. *)
Definition shouldIgnoreNode (node : xml_node) : bool :=
  match node with
  | xml_text _ => true
  | xml_element _ _ => false
  end.

(** The [string] case: [res = ''], then [res += nodeValue] for each text
    child. *)
Definition text_of (childNodes : list xml_node) : string :=
  foldl (λ res child,
           match child with
           | xml_text v => (res ++ v)%string
           | xml_element _ _ => res
           end) ""%string childNodes.

(** [childNodes[0].nodeValue] of a [<key>] element ([''] for an empty one). *)
Definition key_of (childNodes : list xml_node) : string :=
  match childNodes with
  | xml_text v :: _ => v
  | _ => ""%string
  end.

(** The children of a container that are not ignored, each with its node
    name and its parsed value. *)
Definition parsed_child : Type := string * option PlistValue.

Fixpoint values_of (items : list parsed_child) : option (list PlistValue) :=
  match items with
  | [] => Some []
  | (_, Some v) :: rest => cons v <$> values_of rest
  | (_, None) :: _ => None
  end.

(** The loop of the [dict] case: children alternate between a [<key>] and a
    value; a later occurrence of a key overwrites an earlier one, and a last
    key without a value is bound to the empty string. *)
Fixpoint dict_of (items : list parsed_child) (new_obj : PlistObject)
  : option PlistObject :=
  match items with
  | [] => Some new_obj
  | [(name, Some (PlistString key))] =>
      if bool_decide (name = "key"%string)
      then Some (<[key := PlistString ""]> new_obj) else None
  | (name, Some (PlistString key)) :: (name', Some val) :: rest =>
      if bool_decide (name = "key"%string)
         && negb (bool_decide (name' = "key"%string))
      then dict_of rest (<[key := val]> new_obj) else None
  | _ => None
  end.

Fixpoint parsePlistXML (node : xml_node) : option PlistValue :=
  match node with
  | xml_text _ => None
  | xml_element name childNodes =>
      let items :=
        map (λ child, (nodeName_of child, parsePlistXML child))
          childNodes in
      let kept :=
        map snd
          (filter (λ p, negb (shouldIgnoreNode (fst p)))
             (zip childNodes items)) in
      if bool_decide (name = "plist"%string) then
        PlistArray <$> values_of kept
      else if bool_decide (name = "dict"%string) then
        PlistDict <$> dict_of kept ∅
      else if bool_decide (name = "array"%string) then
        PlistArray <$> values_of kept
      else if bool_decide (name = "key"%string) then
        Some (PlistString (key_of childNodes))
      else if bool_decide (name = "string"%string) then
        Some (PlistString (text_of childNodes))
      else None
  end.

(** [plist.parse]: the root must be [<plist>]; it "gets interpreted as an
    Array, so pull out the inner data first": a one-element array is replaced
    by its element, any other array is returned as it is. *)
Definition plist_parse (documentElement : xml_node) : option PlistValue :=
  if bool_decide (nodeName_of documentElement = "plist"%string) then
    match parsePlistXML documentElement with
    | Some (PlistArray [inner]) => Some inner
    | parsed => parsed
    end
  else None.

(* ================================================================== *)
(** ** usbmuxd.ts: private constants and module-level variables *)

Definition PACKAGE : string := "libusbmuxd".
Definition PLIST_LIBUSBMUX_VERSION : Z := 3.

(** The handle a subscriber gets back is a fresh, empty object; callbacks are
    functions of the caller.  Both are known to the library by identity
    only. *)
Abbreviation usbmuxd_subscription_context_t := nat.
Abbreviation usbmuxd_event_cb_t := nat.

Record usbmuxd_subscription_context : Type := mk_context {
  callback : usbmuxd_event_cb_t;
  user_data : ArrayBuffer;
}.

(** One invocation [callback(usbmuxd_event, user_data)] made by the library:
    the function called and its two arguments ([None] is [undefined]).
    Callbacks are opaque to the library; what it does to them is the sequence
    of these invocations. *)
Record callback_call : Type := mk_call {
  callee : usbmuxd_event_cb_t;
  call_event : usbmuxd_event_t;
  call_user_data : option ArrayBuffer;
}.

(** The module-level variables, with two fields of bookkeeping: the number of
    handle objects allocated so far and the callback invocations made so
    far. *)
Record globals : Type := mk_globals {
  _watching : bool;
  _use_tag : Z;
  _proto_version : Z;
  _listener_map : gmap usbmuxd_subscription_context_t
                    usbmuxd_subscription_context;
  _devices : list usbmuxd_device_info_t;
  allocated : nat;
  invoked : list callback_call;
}.

(** The values of the [let] and [const] declarations when the module is
    loaded. *)
Definition initial_globals : globals := {|
  _watching := false;
  _use_tag := 0;
  _proto_version := 1;
  _listener_map := ∅;
  _devices := [];
  allocated := 0;
  invoked := [];
|}.

Definition set_watching (v : bool) (g : globals) : globals :=
  mk_globals v (_use_tag g) (_proto_version g) (_listener_map g)
    (_devices g) (allocated g) (invoked g).

Definition set_use_tag (v : Z) (g : globals) : globals :=
  mk_globals (_watching g) v (_proto_version g) (_listener_map g)
    (_devices g) (allocated g) (invoked g).

Definition set_proto_version (v : Z) (g : globals) : globals :=
  mk_globals (_watching g) (_use_tag g) v (_listener_map g)
    (_devices g) (allocated g) (invoked g).

Definition set_listener_map
  (m : gmap usbmuxd_subscription_context_t usbmuxd_subscription_context)
  (g : globals) : globals :=
  mk_globals (_watching g) (_use_tag g) (_proto_version g) m
    (_devices g) (allocated g) (invoked g).

Definition set_devices (l : list usbmuxd_device_info_t) (g : globals)
  : globals :=
  mk_globals (_watching g) (_use_tag g) (_proto_version g) (_listener_map g)
    l (allocated g) (invoked g).

(** [{}]: a new object, different from every object allocated before. *)
Definition new_object (g : globals) : usbmuxd_subscription_context_t * globals :=
  (allocated g,
   mk_globals (_watching g) (_use_tag g) (_proto_version g) (_listener_map g)
     (_devices g) (S (allocated g)) (invoked g)).

(** [callback(usbmuxd_event, user_data)] *)
Definition invoke (cb : usbmuxd_event_cb_t) (ev : usbmuxd_event_t)
  (arg : option ArrayBuffer) (g : globals) : globals :=
  mk_globals (_watching g) (_use_tag g) (_proto_version g) (_listener_map g)
    (_devices g) (allocated g) (invoked g ++ [mk_call cb ev arg]).

(* ================================================================== *)
(** ** Frames on the wire *)

(** [ToUint32], the conversion [DataView.prototype.setUint32] applies to the
    value it stores. *)
Definition ToUint32 (v : Z) : Z := v mod 2 ^ 32.

(** [view.setUint32(byteOffset, value)].  Without a [littleEndian] argument
    a [DataView] stores the most significant byte first.  (Outside the
    buffer JavaScript raises a RangeError where list insertion does nothing;
    the library writes at offsets 0, 4, 8 and 12 of a 16-byte buffer.) *)
Definition setUint32 (byteOffset : nat) (value : Z) (view : Uint8Array)
  : Uint8Array :=
  let u := ToUint32 value in
  <[(byteOffset + 3)%nat := u mod 256]>
    (<[(byteOffset + 2)%nat := (u / 2 ^ 8) mod 256]>
       (<[(byteOffset + 1)%nat := (u / 2 ^ 16) mod 256]>
          (<[byteOffset := (u / 2 ^ 24) mod 256]> view))).

(** [view.getUint32(byteOffset)]; [None] is the RangeError raised when the
    four bytes do not lie inside the buffer. *)
Definition getUint32 (byteOffset : nat) (view : Uint8Array) : option Z :=
  b0 ← view !! byteOffset;
  b1 ← view !! (byteOffset + 1)%nat;
  b2 ← view !! (byteOffset + 2)%nat;
  b3 ← view !! (byteOffset + 3)%nat;
  Some (b0 * 2 ^ 24 + b1 * 2 ^ 16 + b2 * 2 ^ 8 + b3).

Definition header_byte_length : Z := 4 * 4.

(** [new Uint8Array(n)]: [n] zero bytes. *)
Definition new_Uint8Array (n : Z) : Uint8Array := replicate (Z.to_nat n) 0.

(** The first half of the body of [socket_send_data]: the header record and
    its sixteen bytes. *)
Definition make_header (g : globals) (msg : usbmuxd_msgtype) (tag_ : Z)
  (data : option ArrayBuffer) : usbmuxd_header :=
  let data_byte_length :=
    match data with
    | Some d => Z.of_nat (length d)
    | None => 0
    end in
  {| length_ := header_byte_length + data_byte_length;
     version := _proto_version g;
     message := usbmuxd_msgtype_value msg;
     tag := tag_ |}.

Definition header_data (header : usbmuxd_header) : Uint8Array :=
  setUint32 12 (tag header)
    (setUint32 8 (message header)
       (setUint32 4 (version header)
          (setUint32 0 (length_ header)
             (new_Uint8Array header_byte_length)))).

(** The four bytes [setUint32] stores for one value. *)
Definition uint32_be (value : Z) : Uint8Array :=
  setUint32 0 value (new_Uint8Array 4).

(** A socket as the library sees it: the chunks handed to [sfd.write], in
    order, and whether [sfd.destroy()] was called. *)
Record Socket : Type := mk_socket {
  written : list Uint8Array;
  destroyed : bool;
}.

Definition fresh_socket : Socket := mk_socket [] false.

Definition write (chunk : Uint8Array) (sfd : Socket) : Socket :=
  mk_socket (written sfd ++ [chunk]) (destroyed sfd).

Definition destroy (sfd : Socket) : Socket :=
  mk_socket (written sfd) true.

(** What Node reports for one [sfd.write(data, cb)]: the value [write]
    returns, and whether the callback's [error] argument is [undefined]. *)
Record write_outcome : Type := mk_write {
  write_success : bool;
  error_undefined : bool;
}.

(** [socket_send_raw_data]: [false] at once when [write] returned [false],
    otherwise [error === undefined] from the callback. *)
Definition socket_send_raw_data (w : write_outcome) : bool :=
  if write_success w then error_undefined w else false.

(** What happens around one call of [socket_send_data]. *)
Record send_script : Type := mk_send_script {
  header_write : write_outcome;
  data_write : write_outcome;
  data_event : bool;   (* whether the socket emits "data" afterwards *)
}.

(** A promise that has run its course: settled with a value, or never
    settled. *)
Inductive promise (A : Type) : Type :=
| Resolved (value : A)
| Pending.
Arguments Resolved {A} value.
Arguments Pending {A}.

(** [void | ArrayBuffer | number] *)
Inductive send_result : Type :=
| SendVoid
| SendArrayBuffer (b : ArrayBuffer)
| SendNumber (z : Z).
(* ================================================================== *)
(** ** usbmuxd.ts: results, scripts and calls *)

(** [usbmuxd_errno.ts] is imported but is not among the sources; the three
    error numbers the code names are parameters of the development. *)
Record UsbmuxdErrno_t : Type := mk_errno {
  EPERM : Z;
  ENOENT : Z;
  EINVAL : Z;
}.

(** [void | PlistObject | number] *)
Inductive send_plist_result : Type :=
| SentVoid
| SentPlist (o : option PlistValue)
| SentNumber (z : Z).

(** The exceptions the code raises: the TypeError of a property read on
    [undefined], the RangeError of a [DataView] read outside its buffer, and
    [new Error()]. *)
Inductive exception : Type :=
| TypeError
| RangeError
| Error.

(** How a call ends: with a value, or with an exception. *)
Inductive completion (A : Type) : Type :=
| Normal (value : A)
| Throw (e : exception).
Arguments Normal {A} value.
Arguments Throw {A} e.

(** One connection of a listing: whether [createConnection] ends in
    "connect" or in "error", and what the runtime reports for the one
    request the listing sends on it. *)
Record session : Type := mk_session {
  connected : bool;
  request : send_script;
}.

(** What the caller's promise settles with:
    [usbmuxd_device_info_t[] | number]. *)
Inductive device_list_result : Type :=
| DeviceArray (device_list : list usbmuxd_device_info_t)
| ErrorNumber (z : Z).

(** How a call ends: its promise is resolved; or a promise it awaits stays
    pending, or it has returned without resolving; or it has thrown, the
    promise of [connect_and_list_devices] is rejected with nothing to handle
    the rejection, and the caller's promise is never resolved; or the call
    is about to open one more connection than the script describes. *)
Inductive outcome : Type :=
| Settled (r : device_list_result)
| NeverSettled
| Unhandled (e : exception)
| Reconnecting.

(** What the call does to the sockets it opens; [k] counts the connections
    of the call.  A request is followed by the chunks it hands to
    [sfd.write]. *)
Inductive socket_event : Type :=
| Opened (k : nat)
| ListDevicesRequest (k : nat) (tag_ : Z)
| ListenRequest (k : nat) (tag_ : Z)
| Wrote (k : nat) (chunk : Uint8Array)
| Received (k : nat)
| Destroyed (k : nat).

(** The calls a client makes, one after the other (a call has run its course
    before the next one starts). *)
Inductive call : Type :=
| events_subscribe (callback_ : usbmuxd_event_cb_t) (user_data_ : ArrayBuffer)
| events_unsubscribe (context : usbmuxd_subscription_context_t)
| get_device_list (script : list session)
| listen_session (watching : bool) (devices : list usbmuxd_device_info_t).

Inductive call_result : Type :=
| subscribed (r : usbmuxd_subscription_context_t + Z)
| unsubscribed (r : Z)
| listed (o : outcome)
| listening.


(* ------------------------------------------------------------------ *)
(** *** Sample inputs *)

(** The usual values of the three error numbers. *)
Definition posix_errno : UsbmuxdErrno_t :=
  {| EPERM := 1; ENOENT := 2; EINVAL := 22 |}.

Definition sample_device : usbmuxd_device_info_t :=
  {| handle := 7; product_id := 4776; udid := "00008030-001A2D3E4F";
     conn_type := CONNECTION_TYPE_USB; conn_data := [] |}.

(** The record of [sample_device] in a ListDevices reply. *)
Definition sample_record : PlistObject :=
  <["DeviceID"%string := PlistNumber (Num 7)]>
    (<["ProductID"%string := PlistNumber (Num 4776)]>
       (<["SerialNumber"%string := PlistString "00008030-001A2D3E4F"]>
          (<["ConnectionType"%string := PlistString "USB"]> ∅))).

(** A record without a SerialNumber. *)
Definition malformed_record : PlistObject :=
  <["DeviceID"%string := PlistNumber (Num 9)]>
    (<["ProductID"%string := PlistNumber (Num 4776)]>
       (<["ConnectionType"%string := PlistString "USB"]> ∅)).

(** The runtime reports both writes of a request as done, and data arrives
    afterwards: the daemon has answered. *)
Definition answered : send_script :=
  {| header_write := mk_write true true;
     data_write := mk_write true true;
     data_event := true |}.

(** The request goes out and nothing comes back. *)
Definition unanswered : send_script :=
  {| header_write := mk_write true true;
     data_write := mk_write true true;
     data_event := false |}.

(** The callback of the first [sfd.write] is given an error. *)
Definition header_refused : send_script :=
  {| header_write := mk_write true false;
     data_write := mk_write true true;
     data_event := false |}.

(** The header goes out; [sfd.write] returns [false] for the payload. *)
Definition payload_refused : send_script :=
  {| header_write := mk_write true true;
     data_write := mk_write false true;
     data_event := false |}.

(** Connections: the daemon answers the request; the daemon stays silent;
    the request cannot be written; nobody listens on the socket file. *)
Definition answers : session := mk_session true answered.
Definition stays_silent : session := mk_session true unanswered.
Definition write_fails : session := mk_session true header_refused.
Definition payload_fails : session := mk_session true payload_refused.
Definition refuses_connection : session := mk_session false unanswered.

(** Stand-ins for the two functions of the [plist] package at the sample
    inputs: every value is serialised to the same three bytes, and no bytes
    parse. *)
Definition sample_plist_build (v : PlistValue) : Uint8Array := [60; 112; 62].
Definition sample_plist_decode (b : ArrayBuffer) : option PlistValue := None.

(** Module-level variables with one subscriber and one known device. *)
Definition sample_globals : globals :=
  {| _watching := true;
     _use_tag := 3;
     _proto_version := 1;
     _listener_map := {[ 0%nat := mk_context 5%nat [1; 2] ]};
     _devices := [sample_device];
     allocated := 1;
     invoked := [] |}.

(* ================================================================== *)
(** ** private/type_guard.ts, on every kind of value

    The guards are declared on [unknown].  The values below are what
    [typeof], [=== null] and [instanceof Error] tell apart, together with
    the kinds of object [plist.parse] yields. *)

Module type_guard.

Inductive unknown : Type :=
| js_null
| js_undefined
| js_number (n : number)
| js_boolean (b : bool)
| js_string (s : string)
| js_symbol (description : string)
| js_bigint (z : Z)
| js_function (arity : nat)
| js_array (elements : list unknown)
| js_error (message : string)
| js_uint8array (bytes : Uint8Array)
| js_date (t : Z)
| js_object (props : gmap string unknown).

(** [typeof x] *)
Definition typeof (x : unknown) : string :=
  match x with
  | js_undefined => "undefined"
  | js_number _ => "number"
  | js_boolean _ => "boolean"
  | js_string _ => "string"
  | js_symbol _ => "symbol"
  | js_bigint _ => "bigint"
  | js_function _ => "function"
  | js_null | js_array _ | js_error _ | js_uint8array _ | js_date _
  | js_object _ => "object"
  end.

(** [isNaN(x)] for [x] of type number. *)
Definition isNaN (x : unknown) : bool :=
  match x with
  | js_number NaN => true
  | _ => false
  end.

Definition is_null (x : unknown) : bool :=
  match x with js_null => true | _ => false end.

Definition isNull (x : unknown) : bool := is_null x.

Definition isUndefined (x : unknown) : bool :=
  match x with js_undefined => true | _ => false end.

Definition isNullOrUndefined (x : unknown) : bool :=
  isNull x || isUndefined x.

Definition isNumber (x : unknown) : bool :=
  negb (is_null x) && bool_decide (typeof x = "number"%string)
  && negb (isNaN x).

Definition isBoolean (x : unknown) : bool :=
  negb (is_null x) && bool_decide (typeof x = "boolean"%string).

Definition isString (x : unknown) : bool :=
  bool_decide (typeof x = "string"%string).

Definition isFunction (x : unknown) : bool :=
  bool_decide (typeof x = "function"%string).

Definition isRecord (x : unknown) : bool :=
  if bool_decide (typeof x = "object"%string) then negb (is_null x)
  else bool_decide (typeof x = "function"%string).

Definition isStringOrNumber (x : unknown) : bool :=
  isString x || isNumber x.

(** [isRecord(v) && v instanceof Error] *)
Definition isError (v : unknown) : bool :=
  isRecord v && match v with js_error _ => true | _ => false end.

End type_guard.

(** The values [plist.parse] yields, and [undefined] for a property that is
    not there, among all values. *)
Fixpoint unknown_of_plist (v : PlistValue) : type_guard.unknown :=
  match v with
  | PlistString s => type_guard.js_string s
  | PlistNumber n => type_guard.js_number n
  | PlistBoolean b => type_guard.js_boolean b
  | PlistDate t => type_guard.js_date t
  | PlistBuffer bytes => type_guard.js_uint8array bytes
  | PlistArray l => type_guard.js_array (map unknown_of_plist l)
  | PlistDict o => type_guard.js_object (unknown_of_plist <$> o)
  end.

Definition unknown_of_property (x : option PlistValue) : type_guard.unknown :=
  match x with
  | Some v => unknown_of_plist v
  | None => type_guard.js_undefined
  end.

(* ================================================================== *)
(** ** usbmuxd.ts: logging and the lookup options *)

(** What [console.error] has been given, one list of arguments per call. *)
Abbreviation console := (list (list string)).

(** [LIBUSBMUXD_DEBUG(level, ...args)], with the current value of
    [_log_level_limit]. *)
Definition LIBUSBMUXD_DEBUG (_log_level_limit : Z) (level : Z)
  (args : list string) (out : console) : console :=
  if level <=? _log_level_limit
  then out ++ [("[" ++ PACKAGE ++ "]")%string :: args]
  else out.

Definition LIBUSBMUXD_ERROR (_log_level_limit : Z) (args : list string)
  (out : console) : console :=
  LIBUSBMUXD_DEBUG _log_level_limit 0 args out.

(** [libusbmuxd_set_debug_level(level)]: the body is empty;
    [_log_level_limit] keeps its value. *)
Definition libusbmuxd_set_debug_level (level : Z) (_log_level_limit : Z) : Z :=
  _log_level_limit.

(** [let _log_level_limit = 0] *)
Definition initial_log_level_limit : Z := 0.

(** [device_info_from_plist] with what it logs: each test that fails calls
    [LIBUSBMUXD_ERROR] and clears [success]; the function goes on to the next
    test. *)
Definition device_info_from_plist_logged (_log_level_limit : Z)
  (props : PlistObject) (out : console)
  : option usbmuxd_device_info_t * console :=
  let __func__ := "device_info_from_plist"%string in
  let DeviceID := props !! "DeviceID"%string in
  let ProductID := props !! "ProductID"%string in
  let SerialNumber := props !! "SerialNumber"%string in
  let ConnectionType := props !! "ConnectionType"%string in
  let NetworkAddress := props !! "NetworkAddress"%string in
  let success := true in
  let '(out, success) :=
    if negb (isNumber DeviceID)
    then (LIBUSBMUXD_ERROR _log_level_limit
            [(__func__ ++ ": Failed to get DeviceID!")%string] out, false)
    else (out, success) in
  let '(out, success) :=
    if negb (isNumber ProductID)
    then (LIBUSBMUXD_ERROR _log_level_limit
            [(__func__ ++ ": Failed to get ProductID!")%string] out, false)
    else (out, success) in
  let '(out, success) :=
    if negb (isString SerialNumber)
    then (LIBUSBMUXD_ERROR _log_level_limit
            [(__func__ ++ ": Failed to get SerialNumber!")%string] out, false)
    else (out, success) in
  let '(out, success) :=
    if negb (eq_string_literal ConnectionType "USB")
       && negb (eq_string_literal ConnectionType "Network")
    then (LIBUSBMUXD_ERROR _log_level_limit
            [(__func__ ++ ": Unexpected ConnectionType!")%string] out, false)
    else (out, success) in
  let '(out, success) :=
    if eq_string_literal ConnectionType "Network"
       && negb (instanceof_Uint8Array NetworkAddress)
    then (LIBUSBMUXD_ERROR _log_level_limit
            [(__func__ ++ ": Failed to get NetworkAddress!")%string] out, false)
    else (out, success) in
  if negb success then (None, out)
  else (Some {|
    handle := as_number DeviceID;
    product_id := as_number ProductID;
    udid := as_string SerialNumber;
    conn_type :=
      if eq_string_literal ConnectionType "Network"
      then CONNECTION_TYPE_NETWORK else CONNECTION_TYPE_USB;
    conn_data :=
      if eq_string_literal ConnectionType "Network"
      then as_Uint8Array NetworkAddress else [];
  |}, out).

(** The tests of [device_info_from_plist] that a record fails. *)
Definition failed_tests (props : PlistObject) : nat :=
  let ConnectionType := props !! "ConnectionType"%string in
  (if isNumber (props !! "DeviceID"%string) then 0 else 1)
  + (if isNumber (props !! "ProductID"%string) then 0 else 1)
  + (if isString (props !! "SerialNumber"%string) then 0 else 1)
  + (if eq_string_literal ConnectionType "USB"
        || eq_string_literal ConnectionType "Network" then 0 else 1)
  + (if eq_string_literal ConnectionType "Network"
        && negb (instanceof_Uint8Array (props !! "NetworkAddress"%string))
     then 1 else 0).

(** [enum usbmux_lookup_options] *)
Inductive usbmux_lookup_options : Type :=
| DEVICE_LOOKUP_USBMUX
| DEVICE_LOOKUP_NETWORK
| DEVICE_LOOKUP_PREFER_NETWORK.

#[global] Instance usbmux_lookup_options_eq_dec : EqDecision usbmux_lookup_options.
Proof. solve_decision. Defined.

Definition usbmux_lookup_options_value (o : usbmux_lookup_options) : Z :=
  match o with
  | DEVICE_LOOKUP_USBMUX => Z.shiftl 1 1
  | DEVICE_LOOKUP_NETWORK => Z.shiftl 1 2
  | DEVICE_LOOKUP_PREFER_NETWORK => Z.shiftl 1 3
  end.

(** The "bitwise or'ed values of usbmux_lookup_options" a caller passes. *)
Definition or_options (l : list usbmux_lookup_options) : Z :=
  foldr (λ o acc, Z.lor (usbmux_lookup_options_value o) acc) 0 l.

(* ================================================================== *)
(** ** Reading the trace of a listing *)

(** The connection an event belongs to. *)
Definition connection_of (e : socket_event) : nat :=
  match e with
  | Opened k | ListDevicesRequest k _ | ListenRequest k _ | Wrote k _
  | Received k | Destroyed k => k
  end.

(** The tags of the requests of a trace, in order. *)
Fixpoint tags_of (tr : list socket_event) : list Z :=
  match tr with
  | [] => []
  | ListDevicesRequest _ t :: rest | ListenRequest _ t :: rest =>
      t :: tags_of rest
  | _ :: rest => tags_of rest
  end.

(** Whether a call has ended with the caller's promise unsettled. *)
Definition unsettled (o : outcome) : bool :=
  match o with
  | NeverSettled | Unhandled _ => true
  | Settled _ | Reconnecting => false
  end.

Definition is_list_devices_request (e : socket_event) : bool :=
  match e with ListDevicesRequest _ _ => true | _ => false end.

Definition is_listen_request (e : socket_event) : bool :=
  match e with ListenRequest _ _ => true | _ => false end.

(** The calls of the library's own functions, as opposed to a step of the
    listen session. *)
Definition is_client_call (c : call) : bool :=
  match c with
  | listen_session _ _ => false
  | _ => true
  end.

(** The unsubscribe calls of a run that returned 0. *)
Fixpoint unsubscribed_of (results : list call_result) : nat :=
  match results with
  | [] => 0
  | unsubscribed 0 :: rest => S (unsubscribed_of rest)
  | _ :: rest => unsubscribed_of rest
  end.

(** The pairs of callback and user data handed to the subscribe calls of a
    sequence of calls, and the devices its listen-session steps made
    known. *)
Fixpoint subscriptions_of (calls : list call)
  : list (usbmuxd_event_cb_t * ArrayBuffer) :=
  match calls with
  | [] => []
  | events_subscribe cb ud :: rest => (cb, ud) :: subscriptions_of rest
  | _ :: rest => subscriptions_of rest
  end.

Fixpoint devices_of (calls : list call) : list usbmuxd_device_info_t :=
  match calls with
  | [] => []
  | listen_session _ devices :: rest => devices ++ devices_of rest
  | _ :: rest => devices_of rest
  end.

(** An invocation that agrees with the subscriptions and the devices of a
    sequence of calls: a UE_DEVICE_ADD event goes to a subscribed callback
    with the user data it was subscribed with, a UE_DEVICE_REMOVE event goes
    to a subscribed callback with [undefined] in place of the user data, and
    the device of either was made known by the listen session;
    UE_DEVICE_PAIRED is not delivered. *)
Definition delivered_as_subscribed (calls : list call) (c : callback_call)
  : Prop :=
  device (call_event c) ∈ devices_of calls ∧
  match event (call_event c) with
  | UE_DEVICE_ADD =>
      ∃ ud, call_user_data c = Some ud
            ∧ (callee c, ud) ∈ subscriptions_of calls
  | UE_DEVICE_REMOVE =>
      call_user_data c = None
      ∧ ∃ ud, (callee c, ud) ∈ subscriptions_of calls
  | UE_DEVICE_PAIRED => False
  end.

(** The invocations made so far, the registry and [_devices] all stem from
    the calls made so far. *)
Definition stems_from (before : list call) (g : globals) : Prop :=
  Forall (delivered_as_subscribed before) (invoked g) ∧
  (∀ h c, _listener_map g !! h = Some c →
          (callback c, user_data c) ∈ subscriptions_of before) ∧
  (∀ d, d ∈ _devices g → d ∈ devices_of before).

(* ------------------------------------------------------------------ *)
(** *** Further sample inputs *)

(** One device is known and no listen session is active. *)
Definition quiet_globals : globals :=
  {| _watching := false;
     _use_tag := 0;
     _proto_version := 1;
     _listener_map := ∅;
     _devices := [sample_device];
     allocated := 0;
     invoked := [] |}.

(** The module-level variables after a downgrade. *)
Definition legacy_globals : globals := set_proto_version 0 initial_globals.

(* ================================================================== *)
(** ** usbmuxd.ts: the functions *)

Section Usbmuxd.

Context (UsbmuxdErrno : UsbmuxdErrno_t).

(** [new TextEncoder().encode(plist.build(plist_object))] and
    [plist.parse(new TextDecoder().decode(result))]: the serialisation of a
    structured value to bytes and back belongs to the [plist] package and to
    the runtime. *)
Context (plist_build : PlistValue → Uint8Array).
Context (plist_decode : ArrayBuffer → option PlistValue).

(* ------------------------------------------------------------------ *)
(** *** create_plist_message *)

(** The line break and indentation between two elements of the template. *)
Definition indent (n : nat) : string :=
  String (Ascii.ascii_of_nat 10) (String.concat "" (replicate n " "%string)).

(** The children of the [<plist>] element of the template literal: the six
    [<key>] and [<string>] elements, separated by white space.  The source
    splices [message_type] into the text of the document before it is
    parsed; for a string without markup, such as "ListDevices" and "Listen",
    the only two the library passes, the parser yields it as the text of the
    fourth element, as written here.  A string with markup characters in it
    is outside this description. *)
Definition create_plist_message_children (message_type : string)
  : list xml_node :=
  [ xml_text (indent 4);
    xml_element "key" [xml_text "ClientVersionString"];
    xml_text (indent 4);
    xml_element "string" [xml_text PACKAGE];
    xml_text (indent 4);
    xml_element "key" [xml_text "MessageType"];
    xml_text (indent 4);
    xml_element "string" [xml_text message_type];
    xml_text (indent 4);
    xml_element "key" [xml_text "kLibUSBMuxVersion"];
    xml_text (indent 4);
    xml_element "string" [xml_text (pretty PLIST_LIBUSBMUX_VERSION)];
    xml_text (indent 2) ].

(** The document element of the template literal, as a DOM tree.  The
    [<plist>] element holds the six elements directly; the template has no
    [<dict>] element. *)
Definition create_plist_message_document (message_type : string) : xml_node :=
  xml_element "plist" (create_plist_message_children message_type).

(** [plist.parse(`...`) as PlistObject]; the cast does nothing at run
    time. *)
Definition create_plist_message (message_type : string) : option PlistValue :=
  plist_parse (create_plist_message_document message_type).

(* ------------------------------------------------------------------ *)
(** *** socket_send_data, socket_send_plist, socket_list_devices,
        socket_listen *)

Definition socket_send_data (env : send_script) (g : globals) (sfd : Socket)
  (msg : usbmuxd_msgtype) (tag_ : Z) (data : option ArrayBuffer)
  : Socket * promise send_result :=
  let header := make_header g msg tag_ data in
  let sfd := write (header_data header) sfd in
  let header_sent := socket_send_raw_data (header_write env) in
  if negb header_sent then
    (sfd, Resolved (SendNumber (- EPERM UsbmuxdErrno)))
  else
    let send_payload :=
      match data with
      | Some d => (0 <? Z.of_nat (length d))
      | None => false
      end in
    let sfd := if send_payload then write (default [] data) sfd else sfd in
    let data_sent :=
      if send_payload then socket_send_raw_data (data_write env) else true in
    if negb data_sent then
      (destroy sfd, Resolved (SendNumber (- EPERM UsbmuxdErrno)))
    else if data_event env then
      (* [on_data_received]: the promise is settled without a value *)
      (sfd, Resolved SendVoid)
    else (sfd, Pending).

Definition socket_send_plist (env : send_script) (g : globals) (sfd : Socket)
  (tag_ : Z) (plist_object : PlistValue)
  : Socket * promise send_plist_result :=
  let data := plist_build plist_object in
  let '(sfd, result) :=
    socket_send_data env g sfd MESSAGE_PLIST tag_ (Some data) in
  match result with
  | Resolved (SendArrayBuffer b) => (sfd, Resolved (SentPlist (plist_decode b)))
  | Resolved SendVoid => (sfd, Resolved SentVoid)
  | Resolved (SendNumber z) => (sfd, Resolved (SentNumber z))
  | Pending => (sfd, Pending)
  end.

(** A request whose message could not be built never reaches the socket
    ([plist.parse] throws inside [create_plist_message]). *)
Definition socket_list_devices (env : send_script) (g : globals) (sfd : Socket)
  (tag_ : Z) : Socket * promise send_plist_result :=
  match create_plist_message "ListDevices" with
  | Some plist_object => socket_send_plist env g sfd tag_ plist_object
  | None => (sfd, Pending)
  end.

Definition socket_listen (env : send_script) (g : globals) (sfd : Socket)
  (tag_ : Z) : Socket * promise send_plist_result :=
  if _proto_version g =? 1 then
    (* construct message plist *)
    match create_plist_message "Listen" with
    | Some plist_object => socket_send_plist env g sfd tag_ plist_object
    | None => (sfd, Pending)
    end
  else
    (* binary packet *)
    let '(sfd, result) := socket_send_data env g sfd MESSAGE_LISTEN tag_ None in
    match result with
    | Resolved (SendArrayBuffer b) => (sfd, Resolved SentVoid)
    | Resolved SendVoid => (sfd, Resolved SentVoid)
    | Resolved (SendNumber z) => (sfd, Resolved (SentNumber z))
    | Pending => (sfd, Pending)
    end.

(* ------------------------------------------------------------------ *)
(** *** usbmuxd_events_subscribe, usbmuxd_events_unsubscribe *)

(** [for (const device of _devices) { callback({ event, device }, arg) }] *)
Definition submit_events (ev : usbmuxd_event_type) (cb : usbmuxd_event_cb_t)
  (arg : option ArrayBuffer) (g : globals) : globals :=
  foldl (λ g device, invoke cb (mk_event ev device) arg g) g (_devices g).

(** [usbmuxd_subscription_context_t | number] *)
Definition usbmuxd_events_subscribe (callback_ : usbmuxd_event_cb_t)
  (user_data_ : ArrayBuffer) (g : globals)
  : globals * (usbmuxd_subscription_context_t + Z) :=
  let context := mk_context callback_ user_data_ in
  let '(context_handle, g) := new_object g in
  let g := set_listener_map (<[context_handle := context]> (_listener_map g)) g in
  if negb (_watching g) then (g, inl context_handle)
  else
    (* we need to submit DEVICE_ADD events to the new listener *)
    let g :=
      submit_events UE_DEVICE_ADD (callback context)
        (Some (user_data context)) g in
    (g, inl context_handle).

(** The second argument of the callback is [context.user_data], read from
    the handle passed in, which is the empty object: it is [undefined]. *)
Definition usbmuxd_events_unsubscribe (context : usbmuxd_subscription_context_t)
  (g : globals) : globals * Z :=
  match _listener_map g !! context with
  | None => (g, - EINVAL UsbmuxdErrno)
  | Some registered_context =>
      let g :=
        submit_events UE_DEVICE_REMOVE (callback registered_context) None g in
      let g := set_listener_map (delete context (_listener_map g)) g in
      (g, 0)
  end.

(* ------------------------------------------------------------------ *)
(** *** usbmuxd_get_device_list

    The function awaits [connect_usbmuxd_socket], [socket_list_devices],
    [socket_listen] and [socket_receive_data].  It is run on a script that
    says, for each connection the call opens, whether the connection is
    established and what the runtime reports for the request sent on it; the
    helpers are the functions above. *)

(** [connect_usbmuxd_socket]: the socket, or [-ENOENT]. *)
Definition connect_usbmuxd_socket (ses : session) : Socket + Z :=
  if connected ses then inl fresh_socket else inr (- ENOENT UsbmuxdErrno).

(** [socket_receive_data]: the body is [throw new Error()]. *)
Definition socket_receive_data (sfd : Socket) (timeout : Z)
  : completion (usbmuxd_header * ArrayBuffer + Z) :=
  Throw Error.

(** [device_info_from_data]: the body is [throw new Error()]. *)
Definition device_info_from_data (data : ArrayBuffer)
  : completion (option usbmuxd_device_info_t) :=
  Throw Error.

(** The events of one request, read off the socket the helper leaves behind:
    the chunks handed to [sfd.write] and, after a failed payload write, the
    [sfd.destroy()] of [socket_send_data]. *)
Definition request_events (k : nat) (sfd : Socket) : list socket_event :=
  map (Wrote k) (written sfd) ++ (if destroyed sfd then [Destroyed k] else []).

(** [isNumber(result)] on what a request resolves with. *)
Definition number_of (result : send_plist_result) : option Z :=
  match result with
  | SentNumber z => Some z
  | SentPlist (Some (PlistNumber (Num z))) => Some z
  | _ => None
  end.

(** The loop over [plist_devlist]; at the first record that is refused the
    call gives up. *)
Fixpoint device_list_from_plist (plist_devlist : list PlistValue)
  (device_list : list usbmuxd_device_info_t)
  : option (list usbmuxd_device_info_t) :=
  match plist_devlist with
  | [] => Some device_list
  | plistdev :: rest =>
      match device_info_from_plist (as_PlistObject plistdev) with
      | None => None
      | Some device_info =>
          device_list_from_plist rest (device_list ++ [device_info])
      end
  end.

(** [lsdev_result.DeviceList]: a TypeError when [lsdev_result] is
    [undefined]; [undefined] when the value has no such property. *)
Definition DeviceList (lsdev_result : send_plist_result)
  : completion (option PlistValue) :=
  match lsdev_result with
  | SentVoid => Throw TypeError
  | SentPlist (Some (PlistDict o)) => Normal (o !! "DeviceList"%string)
  | _ => Normal None
  end.

(** The loop of the DEVICE_REMOVE case: the first entry with that handle is
    spliced out. *)
Fixpoint splice_handle (handle_ : Z) (device_list : list usbmuxd_device_info_t)
  : list usbmuxd_device_info_t :=
  match device_list with
  | [] => []
  | device_ :: rest =>
      if handle device_ =? handle_ then rest
      else device_ :: splice_handle handle_ rest
  end.

(** [recursively_get_device_list]: one [socket_receive_data], then either the
    promise is resolved (a number) or the frame is handled and the function
    returns.  The function does not call itself. *)
Definition recursively_get_device_list (sfd : Socket) (k : nat)
  (device_list : list usbmuxd_device_info_t) (g : globals)
  (tr : list socket_event)
  : globals * list usbmuxd_device_info_t * list socket_event * outcome :=
  match socket_receive_data sfd 100 with
  | Throw e => (g, device_list, tr, Unhandled e)
  | Normal (inr _) =>
      (* we _should_ have all of them now. or perhaps an error occurred. *)
      (set_devices device_list g, device_list, tr ++ [Destroyed k],
       Settled (DeviceArray device_list))
  | Normal (inl (header, body)) =>
      let tr := tr ++ [Received k] in
      if message header =? usbmuxd_msgtype_value MESSAGE_DEVICE_ADD then
        match device_info_from_data body with
        | Throw e => (g, device_list, tr, Unhandled e)
        | Normal (Some device_info) =>
            (set_devices (_devices g ++ [device_info]) g, device_list, tr,
             NeverSettled)
        | Normal None => (g, device_list, tr, NeverSettled)
        end
      else if message header =? usbmuxd_msgtype_value MESSAGE_DEVICE_REMOVE then
        match getUint32 0 body with
        | Some handle_ =>
            (g, splice_handle handle_ device_list, tr, NeverSettled)
        | None => (g, device_list, tr, Unhandled RangeError)
        end
      else (g, device_list, tr, NeverSettled)
  end.

(** [connect_and_list_devices], on the sessions that remain of the script.
    A request that resolves with [SentPlist None] stands for one whose reply
    [plist.parse] refused: the helper's promise is rejected. *)
Fixpoint connect_and_list_devices (script : list session) (k : nat)
  (g : globals) (tr : list socket_event)
  : globals * list socket_event * outcome :=
  match script with
  | [] => (g, tr, Reconnecting)
  | ses :: script' =>
      match connect_usbmuxd_socket ses with
      | inr sfd => (g, tr, Settled (ErrorNumber sfd))
      | inl sfd =>
          let tr := tr ++ [Opened k] in
          (* proto_version conformed, just list devices *)
          let g := set_use_tag (_use_tag g + 1) g in
          let tag_ := _use_tag g in
          if _proto_version g =? 1 then
            let '(sfd, lsdev_result) :=
              socket_list_devices (request ses) g sfd tag_ in
            let tr := tr ++ ListDevicesRequest k tag_ :: request_events k sfd in
            match lsdev_result with
            | Pending => (g, tr, NeverSettled)
            | Resolved (SentPlist None) => (g, tr, Unhandled Error)
            | Resolved lsdev_result =>
                match number_of lsdev_result with
                | Some lsdev =>
                    (* isNumber(lsdev_result) *)
                    let g :=
                      if lsdev =? usbmuxd_result_value RESULT_BADVERSION
                      then set_proto_version 0 g else g in
                    connect_and_list_devices script' (S k) g
                      (tr ++ [Destroyed k])
                | None =>
                    match DeviceList lsdev_result with
                    | Throw e => (g, tr, Unhandled e)
                    | Normal (Some (PlistArray plist_devlist)) =>
                        match device_list_from_plist plist_devlist [] with
                        | None =>
                            (g, tr ++ [Destroyed k],
                             Settled (ErrorNumber (- EPERM UsbmuxdErrno)))
                        | Some device_list =>
                            (* preserve & resolve device_list *)
                            (set_devices device_list g, tr ++ [Destroyed k],
                             Settled (DeviceArray device_list))
                        end
                    | Normal _ =>
                        (set_devices [] g, tr ++ [Destroyed k],
                         Settled (DeviceArray []))
                    end
                end
            end
          else
            (* proto_version unknown, connect & recursively list devices *)
            let g := set_use_tag (_use_tag g + 1) g in
            let tag_ := _use_tag g in
            let '(sfd, listen_result) :=
              socket_listen (request ses) g sfd tag_ in
            let tr := tr ++ ListenRequest k tag_ :: request_events k sfd in
            match listen_result with
            | Pending => (g, tr, NeverSettled)
            | Resolved (SentPlist None) => (g, tr, Unhandled Error)
            | Resolved listen_result =>
                match number_of listen_result with
                | Some listen =>
                    (* isNumber(listen_result) *)
                    let tr := tr ++ [Destroyed k] in
                    if (listen =? usbmuxd_result_value RESULT_BADVERSION)
                       && (_proto_version g =? 1)
                    then
                      connect_and_list_devices script' (S k)
                        (set_proto_version 0 g) tr
                    else (g, tr, Settled (ErrorNumber listen))
                | None =>
                    let '(g, _, tr, o) :=
                      recursively_get_device_list sfd k [] g tr in
                    (g, tr, o)
                end
            end
      end
  end.

Definition usbmuxd_get_device_list (script : list session) (g : globals)
  : globals * list socket_event * outcome :=
  connect_and_list_devices script 0 g [].

(* ------------------------------------------------------------------ *)
(** *** Sequences of calls *)

(** The sources declare [_watching] and never assign it: the standing listen
    session that would set it and keep [_devices] up to date is not among
    them.  [listen_session] stands for whatever that session does between
    two calls of the client: any value of [_watching], any contents of
    [_devices]. *)
Definition listen_session_activity (watching : bool)
  (devices : list usbmuxd_device_info_t) (g : globals) : globals :=
  set_watching watching (set_devices devices g).

Definition perform (c : call) (g : globals) : globals * call_result :=
  match c with
  | events_subscribe cb ud =>
      let '(g, r) := usbmuxd_events_subscribe cb ud g in (g, subscribed r)
  | events_unsubscribe h =>
      let '(g, r) := usbmuxd_events_unsubscribe h g in (g, unsubscribed r)
  | get_device_list script =>
      let '(g, _, o) := usbmuxd_get_device_list script g in (g, listed o)
  | listen_session watching devices =>
      (listen_session_activity watching devices g, listening)
  end.

Fixpoint run (calls : list call) (g : globals) : globals * list call_result :=
  match calls with
  | [] => (g, [])
  | c :: rest =>
      let '(g, r) := perform c g in
      let '(g, rs) := run rest g in
      (g, r :: rs)
  end.

(** The handles handed out by the subscribe calls of a run, in order. *)
Fixpoint handles_of (results : list call_result)
  : list usbmuxd_subscription_context_t :=
  match results with
  | [] => []
  | subscribed (inl h) :: rest => h :: handles_of rest
  | _ :: rest => handles_of rest
  end.

(** A handle in the registry was allocated before. *)
Definition handles_allocated (g : globals) : Prop :=
  ∀ h, is_Some (_listener_map g !! h) → (h < allocated g)%nat.

(** The events of one kind delivered to one callback, among a list of
    invocations. *)
Definition events_to (ev : usbmuxd_event_type) (cb : usbmuxd_event_cb_t)
  (l : list callback_call) : list callback_call :=
  filter (λ c, callee c = cb ∧ event (call_event c) = ev) l.

(* ================================================================== *)
(** ** Properties *)

Lemma isNumber_inv (x : option PlistValue) :
  isNumber x = true → ∃ z, x = Some (PlistNumber (Num z)).
Proof.
  destruct x as [[ | [z|] | | | | | ]|]; simpl; intros H; try discriminate.
  by exists z.
Qed.

Lemma isString_inv (x : option PlistValue) :
  isString x = true → ∃ s, x = Some (PlistString s).
Proof.
  destruct x as [[s| | | | | | ]|]; simpl; intros H; try discriminate.
  by exists s.
Qed.

Lemma instanceof_Uint8Array_inv (x : option PlistValue) :
  instanceof_Uint8Array x = true → ∃ b, x = Some (PlistBuffer b).
Proof.
  destruct x as [[ | | | |b| | ]|]; simpl; intros H; try discriminate.
  by exists b.
Qed.

Lemma eq_string_literal_true (x : option PlistValue) (s : string) :
  eq_string_literal x s = true ↔ x = Some (PlistString s).
Proof.
  destruct x as [[t| | | | | | ]|]; simpl; split; intros H;
    try discriminate; try congruence.
  - apply bool_decide_eq_true in H. by subst.
  - apply bool_decide_eq_true. congruence.
Qed.

(** The [success] flag at the end of the function is the conjunction of
    the five tests. *)
Lemma device_info_from_plist_success (props : PlistObject) :
  let ConnectionType := props !! "ConnectionType"%string in
  is_Some (device_info_from_plist props) ↔
    isNumber (props !! "DeviceID"%string) = true ∧
    isNumber (props !! "ProductID"%string) = true ∧
    isString (props !! "SerialNumber"%string) = true ∧
    (eq_string_literal ConnectionType "USB" = true ∨
     eq_string_literal ConnectionType "Network" = true) ∧
    (eq_string_literal ConnectionType "Network" = true →
     instanceof_Uint8Array (props !! "NetworkAddress"%string) = true).
Proof.
  unfold device_info_from_plist; simpl.
  destruct (isNumber (props !! "DeviceID"%string));
    destruct (isNumber (props !! "ProductID"%string));
    destruct (isString (props !! "SerialNumber"%string));
    destruct (eq_string_literal (props !! "ConnectionType"%string) "USB");
    destruct (eq_string_literal (props !! "ConnectionType"%string) "Network");
    destruct (instanceof_Uint8Array (props !! "NetworkAddress"%string));
    simpl; split;
    try (intros [? [=]]; fail);
    try (intros (? & ? & ? & [?|?] & Hn); try discriminate;
         try (specialize (Hn eq_refl)); discriminate);
    try (intros _; eauto; fail);
    try (intros _; repeat split; auto; intros; discriminate).
Qed.

(** C6.  [device_info_from_plist] yields a device exactly for the records
    whose DeviceID and ProductID are numbers, whose SerialNumber is a string,
    whose ConnectionType is "USB" or "Network" and, for "Network", whose
    NetworkAddress is a byte array; the device then carries an empty
    [conn_data] for USB and the NetworkAddress bytes for Network.  In every
    other case the result is [undefined]. *)
Theorem device_info_from_plist_spec
  (props : PlistObject) (d : usbmuxd_device_info_t) :
  device_info_from_plist props = Some d ↔ accepted_record props d.
Proof.
  split.
  - intros Hd.
    assert (Hs : is_Some (device_info_from_plist props)) by eauto.
    apply device_info_from_plist_success in Hs
      as (Hid & Hpid & Hsn & Hct & Haddr).
    apply isNumber_inv in Hid as [id Hid].
    apply isNumber_inv in Hpid as [pid Hpid].
    apply isString_inv in Hsn as [sn Hsn].
    revert Hd. unfold device_info_from_plist.
    destruct Hct as [Hct|Hct].
    + apply eq_string_literal_true in Hct.
      rewrite Hid, Hpid, Hsn, Hct. simpl. intros [= <-].
      by apply accepted_usb.
    + specialize (Haddr Hct).
      apply instanceof_Uint8Array_inv in Haddr as [addr Haddr].
      apply eq_string_literal_true in Hct.
      rewrite Hid, Hpid, Hsn, Hct, Haddr. simpl. intros [= <-].
      by apply accepted_network.
  - unfold device_info_from_plist.
    intros [id pid sn Hid Hpid Hsn Hct | id pid sn addr Hid Hpid Hsn Hct Haddr];
      rewrite Hid, Hpid, Hsn, Hct; [|rewrite Haddr]; reflexivity.
Qed.

(* ================================================================== *)
(** ** Properties *)

(* ------------------------------------------------------------------ *)
(** *** The module-level variables under callbacks and setters *)

Lemma foldl_invoke (ev : usbmuxd_event_type) (cb : usbmuxd_event_cb_t)
  (arg : option ArrayBuffer) (l : list usbmuxd_device_info_t) (g : globals) :
  foldl (λ g device, invoke cb (mk_event ev device) arg g) g l =
  mk_globals (_watching g) (_use_tag g) (_proto_version g) (_listener_map g)
    (_devices g) (allocated g)
    (invoked g ++ map (λ d, mk_call cb (mk_event ev d) arg) l).
Proof.
  revert g. induction l as [|d l IH]; intros g; simpl.
  - rewrite app_nil_r. by destruct g.
  - rewrite IH. simpl. by rewrite <- app_assoc.
Qed.

Lemma submit_events_eq (ev : usbmuxd_event_type) (cb : usbmuxd_event_cb_t)
  (arg : option ArrayBuffer) (g : globals) :
  submit_events ev cb arg g =
  mk_globals (_watching g) (_use_tag g) (_proto_version g) (_listener_map g)
    (_devices g) (allocated g)
    (invoked g ++ map (λ d, mk_call cb (mk_event ev d) arg) (_devices g)).
Proof. apply foldl_invoke. Qed.

(* ------------------------------------------------------------------ *)
(** *** Frames *)

Lemma ToUint32_small (v : Z) : 0 ≤ v < 2 ^ 32 → ToUint32 v = v.
Proof. intros H. unfold ToUint32. by apply Z.mod_small. Qed.

Lemma uint32_bytes (u : Z) :
  0 ≤ u < 2 ^ 32 →
  (u / 2 ^ 24) mod 256 * 2 ^ 24 + (u / 2 ^ 16) mod 256 * 2 ^ 16
    + (u / 2 ^ 8) mod 256 * 2 ^ 8 + u mod 256 = u.
Proof.
  intros H.
  change (2 ^ 24) with 16777216. change (2 ^ 16) with 65536.
  change (2 ^ 8) with 256. change (2 ^ 32) with 4294967296 in H.
  Z.div_mod_to_equations. lia.
Qed.

(** The sixteen bytes of a header: each field, most significant byte first,
    in the order length, version, message, tag. *)
Lemma header_data_bytes (h : usbmuxd_header) :
  header_data h =
  let l := ToUint32 (length_ h) in
  let v := ToUint32 (version h) in
  let m := ToUint32 (message h) in
  let t := ToUint32 (tag h) in
  [ (l / 2 ^ 24) mod 256; (l / 2 ^ 16) mod 256; (l / 2 ^ 8) mod 256; l mod 256;
    (v / 2 ^ 24) mod 256; (v / 2 ^ 16) mod 256; (v / 2 ^ 8) mod 256; v mod 256;
    (m / 2 ^ 24) mod 256; (m / 2 ^ 16) mod 256; (m / 2 ^ 8) mod 256; m mod 256;
    (t / 2 ^ 24) mod 256; (t / 2 ^ 16) mod 256; (t / 2 ^ 8) mod 256; t mod 256 ].
Proof. reflexivity. Qed.

(** Reading a field back yields the value stored, reduced modulo 2^32. *)
Lemma header_data_fields (h : usbmuxd_header) :
  getUint32 0 (header_data h) = Some (ToUint32 (length_ h)) ∧
  getUint32 4 (header_data h) = Some (ToUint32 (version h)) ∧
  getUint32 8 (header_data h) = Some (ToUint32 (message h)) ∧
  getUint32 12 (header_data h) = Some (ToUint32 (tag h)).
Proof.
  rewrite header_data_bytes. cbv zeta.
  assert (Hr : ∀ v, 0 ≤ ToUint32 v < 2 ^ 32)
    by (intros v; unfold ToUint32; apply Z.mod_pos_bound; lia).
  repeat split; unfold getUint32; simpl; f_equal; apply uint32_bytes, Hr.
Qed.

Lemma msgtype_value_range (m : usbmuxd_msgtype) :
  0 ≤ usbmuxd_msgtype_value m < 2 ^ 32.
Proof. destruct m; simpl; lia. Qed.

(** C8.  A request with message type [msg], tag [tag_] and a payload of [n]
    bytes hands the socket a 16-byte header first: four unsigned 32-bit
    fields, all stored most significant byte first, for 16 + n, the current
    [_proto_version], the value of [msg] and [tag_] in that order; read back
    as 32-bit fields they are these four values (which are those of 32-bit
    fields: the protocol version, the tag and 16 + n lie below 2^32).  When
    the header is written, a non-empty payload follows it as the next chunk,
    unchanged, so that the bytes of the frame are the header followed by the
    payload. *)
Theorem socket_send_data_frame (env : send_script) (g : globals)
  (sfd : Socket) (msg : usbmuxd_msgtype) (tag_ : Z)
  (data : option ArrayBuffer) :
  let payload := default [] data in
  let n := Z.of_nat (length payload) in
  let sfd' := (socket_send_data env g sfd msg tag_ data).1 in
  0 ≤ _proto_version g < 2 ^ 32 →
  0 ≤ tag_ < 2 ^ 32 →
  16 + n < 2 ^ 32 →
  ∃ header : Uint8Array,
    length header = 16%nat ∧
    header = uint32_be (16 + n) ++ uint32_be (_proto_version g)
               ++ uint32_be (usbmuxd_msgtype_value msg) ++ uint32_be tag_ ∧
    getUint32 0 header = Some (16 + n) ∧
    getUint32 4 header = Some (_proto_version g) ∧
    getUint32 8 header = Some (usbmuxd_msgtype_value msg) ∧
    getUint32 12 header = Some tag_ ∧
    written sfd' =
      written sfd ++
      header :: (if socket_send_raw_data (header_write env) && (0 <? n)
                 then [payload] else []) ∧
    (socket_send_raw_data (header_write env) = true →
     concat (written sfd') = concat (written sfd) ++ header ++ payload).
Proof.
  intros payload n sfd' Hv Ht Hn.
  set (h := make_header g msg tag_ data).
  assert (Hlen : length_ h = 16 + n).
  { unfold h, make_header, n, payload. simpl. by destruct data. }
  exists (header_data h).
  destruct (header_data_fields h) as (H0 & H4 & H8 & H12).
  assert (Hw : written sfd' =
      written sfd ++
      header_data h :: (if socket_send_raw_data (header_write env) && (0 <? n)
                 then [payload] else [])).
  { unfold sfd', socket_send_data. fold h.
    destruct (socket_send_raw_data (header_write env)); simpl.
    - unfold n, payload. destruct data as [d|]; simpl.
      + destruct (0 <? Z.of_nat (length d)); simpl;
          destruct (socket_send_raw_data (data_write env)); simpl;
          try destruct (data_event env); simpl;
          by rewrite <- ?app_assoc.
      + by destruct (data_event env).
    - reflexivity. }
  split; [by rewrite header_data_bytes|].
  split.
  { rewrite header_data_bytes, Hlen. reflexivity. }
  split; [rewrite H0, Hlen; f_equal; apply ToUint32_small; lia|].
  split; [rewrite H4; f_equal; by apply ToUint32_small|].
  split; [rewrite H8; f_equal; apply ToUint32_small, msgtype_value_range|].
  split; [rewrite H12; f_equal; by apply ToUint32_small|].
  split; [exact Hw|].
  intros Hsent. rewrite Hw, Hsent.
  generalize (header_data h); intros header.
  rewrite concat_app. simpl.
  destruct (0 <? n) eqn:Hpos; simpl.
  - by rewrite app_nil_r.
  - assert (payload = []) as ->; [|by rewrite !app_nil_r].
    apply Z.ltb_ge in Hpos. apply length_zero_iff_nil. unfold n in Hpos. lia.
Qed.

(* ------------------------------------------------------------------ *)
(** *** Request messages *)

(** Had the template wrapped its six elements in a [<dict>], the message
    would be the mapping with the three bookkeeping keys. *)
Lemma dict_wrapped_message_is_mapping (message_type : string) :
  ∃ o : PlistObject,
    plist_parse
      (xml_element "plist"
         [xml_element "dict" (create_plist_message_children message_type)])
      = Some (PlistDict o) ∧
    o !! "ClientVersionString"%string = Some (PlistString PACKAGE) ∧
    o !! "MessageType"%string = Some (PlistString message_type) ∧
    o !! "kLibUSBMuxVersion"%string = Some (PlistString "3").
Proof. eexists. split; [reflexivity|]. by vm_compute. Qed.

(** [socket_send_plist] hands the socket a header whose message type is
    PLIST (8), for the bytes [plist.build] makes of the message. *)
Lemma socket_send_plist_header (env : send_script) (g : globals)
  (sfd : Socket) (tag_ : Z) (plist_object : PlistValue) :
  let h := make_header g MESSAGE_PLIST tag_ (Some (plist_build plist_object)) in
  message h = 8 ∧
  ∃ rest, written (socket_send_plist env g sfd tag_ plist_object).1
          = written sfd ++ header_data h :: rest.
Proof.
  intros h. split; [reflexivity|]. unfold socket_send_plist, socket_send_data.
  fold h.
  destruct (socket_send_raw_data (header_write env)); simpl.
  - destruct (0 <? _); simpl;
      destruct (socket_send_raw_data (data_write env)); simpl;
      try destruct (data_event env); simpl;
      rewrite <- ?app_assoc; eauto.
  - eauto.
Qed.

(** The ListDevices request on the wire, when both writes succeed: a PLIST
    header, then the bytes [plist.build] makes of the array of six
    strings. *)
Lemma socket_list_devices_request (env : send_script) (g : globals)
  (sfd : Socket) (tag_ : Z) :
  let payload :=
    plist_build
      (PlistArray
         [ PlistString "ClientVersionString"; PlistString "libusbmuxd";
           PlistString "MessageType"; PlistString "ListDevices";
           PlistString "kLibUSBMuxVersion"; PlistString "3" ]) in
  socket_send_raw_data (header_write env) = true →
  payload ≠ [] →
  written (socket_list_devices env g sfd tag_).1 =
    written sfd ++
    [header_data (make_header g MESSAGE_PLIST tag_ (Some payload)); payload].
Proof.
  intros payload Hh Hp. unfold socket_list_devices.
  change (create_plist_message "ListDevices")
    with (Some (PlistArray
         [ PlistString "ClientVersionString"; PlistString "libusbmuxd";
           PlistString "MessageType"; PlistString "ListDevices";
           PlistString "kLibUSBMuxVersion"; PlistString "3" ])).
  unfold socket_send_plist, socket_send_data. fold payload.
  rewrite Hh. simpl.
  assert (Hlen : (0 <? Z.of_nat (length payload)) = true).
  { apply Z.ltb_lt. destruct payload; [done|simpl; lia]. }
  rewrite Hlen.
  destruct (socket_send_raw_data (data_write env)); simpl;
    try destruct (data_event env); simpl; by rewrite <- app_assoc.
Qed.

(** C9.  The value [create_plist_message] builds for a request, evaluated:
    [plist.parse] is given a [<plist>] element that holds the [<key>] and
    [<string>] elements directly, and returns them as an array of six
    strings.  The payload of a negotiated-version request is therefore not a
    mapping with the keys ClientVersionString, MessageType and
    kLibUSBMuxVersion. *)
Theorem create_plist_message_is_array (message_type : string) :
  create_plist_message message_type =
    Some (PlistArray
            [ PlistString "ClientVersionString"; PlistString "libusbmuxd";
              PlistString "MessageType"; PlistString message_type;
              PlistString "kLibUSBMuxVersion"; PlistString "3" ]) ∧
  ∀ o : PlistObject, create_plist_message message_type ≠ Some (PlistDict o).
Proof.
  assert (H : create_plist_message message_type =
    Some (PlistArray
            [ PlistString "ClientVersionString"; PlistString "libusbmuxd";
              PlistString "MessageType"; PlistString message_type;
              PlistString "kLibUSBMuxVersion"; PlistString "3" ]))
    by reflexivity.
  split; [exact H|]. intros o. rewrite H. discriminate.
Qed.

(* ------------------------------------------------------------------ *)
(** *** Subscriptions *)


Lemma usbmuxd_events_subscribe_eq (cb : usbmuxd_event_cb_t)
  (ud : ArrayBuffer) (g : globals) :
  usbmuxd_events_subscribe cb ud g =
  (mk_globals (_watching g) (_use_tag g) (_proto_version g)
     (<[allocated g := mk_context cb ud]> (_listener_map g)) (_devices g)
     (S (allocated g))
     (invoked g ++
      if _watching g
      then map (λ d, mk_call cb (mk_event UE_DEVICE_ADD d) (Some ud))
             (_devices g)
      else []),
   inl (allocated g)).
Proof.
  unfold usbmuxd_events_subscribe, new_object. simpl.
  destruct (_watching g); simpl.
  - by rewrite submit_events_eq.
  - unfold set_listener_map. simpl. by rewrite app_nil_r.
Qed.

Lemma usbmuxd_events_unsubscribe_fields (h : usbmuxd_subscription_context_t)
  (g : globals) :
  let g' := (usbmuxd_events_unsubscribe h g).1 in
  _watching g' = _watching g ∧ _use_tag g' = _use_tag g ∧
  _proto_version g' = _proto_version g ∧ _devices g' = _devices g ∧
  allocated g' = allocated g ∧
  (∀ h', is_Some (_listener_map g' !! h') → is_Some (_listener_map g !! h')).
Proof.
  unfold usbmuxd_events_unsubscribe.
  destruct (_listener_map g !! h) as [c|] eqn:Hreg; simpl.
  - rewrite submit_events_eq. simpl. repeat split.
    intros h'. rewrite lookup_delete_is_Some. tauto.
  - repeat split. tauto.
Qed.

(* ------------------------------------------------------------------ *)
(** *** What a request ends with *)

(** A request on a new socket ends unsettled or with nothing, the socket
    left open, or it ends with [-EPERM]. *)
Lemma socket_send_data_ends (env : send_script) (g : globals)
  (msg : usbmuxd_msgtype) (tag_ : Z) (data : option ArrayBuffer) :
  let r := socket_send_data env g fresh_socket msg tag_ data in
  (r.2 = Pending ∧ destroyed r.1 = false)
  ∨ (r.2 = Resolved SendVoid ∧ destroyed r.1 = false)
  ∨ r.2 = Resolved (SendNumber (- EPERM UsbmuxdErrno)).
Proof.
  cbv zeta. unfold socket_send_data.
  destruct (socket_send_raw_data (header_write env)); simpl; [|auto].
  destruct (match data with Some d => 0 <? Z.of_nat (length d) | None => false end);
    [destruct (socket_send_raw_data (data_write env))|]; simpl;
    try destruct (data_event env); auto.
Qed.

Lemma socket_send_plist_ends (env : send_script) (g : globals) (tag_ : Z)
  (plist_object : PlistValue) :
  let r := socket_send_plist env g fresh_socket tag_ plist_object in
  (r.2 = Pending ∧ destroyed r.1 = false)
  ∨ (r.2 = Resolved SentVoid ∧ destroyed r.1 = false)
  ∨ r.2 = Resolved (SentNumber (- EPERM UsbmuxdErrno)).
Proof.
  cbv zeta. unfold socket_send_plist.
  pose proof (socket_send_data_ends env g MESSAGE_PLIST tag_
                (Some (plist_build plist_object))) as H.
  destruct (socket_send_data env g fresh_socket MESSAGE_PLIST tag_
              (Some (plist_build plist_object))) as [sfd r].
  simpl in H. destruct H as [[-> Hd]|[[-> Hd]| ->]]; simpl; auto.
Qed.

Lemma socket_list_devices_ends (env : send_script) (g : globals) (tag_ : Z) :
  let r := socket_list_devices env g fresh_socket tag_ in
  (r.2 = Pending ∧ destroyed r.1 = false)
  ∨ (r.2 = Resolved SentVoid ∧ destroyed r.1 = false)
  ∨ r.2 = Resolved (SentNumber (- EPERM UsbmuxdErrno)).
Proof.
  cbv zeta. unfold socket_list_devices.
  destruct (create_plist_message "ListDevices");
    [apply socket_send_plist_ends|simpl; auto].
Qed.

(** Under a version other than 1 the Listen request has no payload, so the
    helper never destroys the socket. *)
Lemma socket_listen_ends (env : send_script) (g : globals) (tag_ : Z) :
  let r := socket_listen env g fresh_socket tag_ in
  (r.2 = Pending ∧ destroyed r.1 = false)
  ∨ (r.2 = Resolved SentVoid ∧ destroyed r.1 = false)
  ∨ (r.2 = Resolved (SentNumber (- EPERM UsbmuxdErrno))
     ∧ (_proto_version g ≠ 1 → destroyed r.1 = false)).
Proof.
  cbv zeta. unfold socket_listen.
  destruct (_proto_version g =? 1) eqn:Hv.
  - apply Z.eqb_eq in Hv.
    destruct (create_plist_message "Listen"); [|simpl; auto].
    destruct (socket_send_plist_ends env g tag_ p) as [H|[H|H]]; auto.
    right; right. split; [exact H|]. intros Hne. by destruct Hne.
  - unfold socket_send_data.
    destruct (socket_send_raw_data (header_write env)); simpl; [|auto].
    destruct (data_event env); simpl; auto.
Qed.

(** Under a version other than 1 the Listen request is one chunk, the
    header. *)
Lemma socket_listen_legacy_written (env : send_script) (g : globals)
  (sfd : Socket) (tag_ : Z) :
  _proto_version g ≠ 1 →
  written (socket_listen env g sfd tag_).1 =
    written sfd ++ [header_data (mk_header 16 (_proto_version g) 3 tag_)].
Proof.
  intros Hv. apply Z.eqb_neq in Hv. unfold socket_listen. rewrite Hv.
  unfold socket_send_data.
  destruct (socket_send_raw_data (header_write env)); simpl; [|done].
  by destruct (data_event env).
Qed.

(* ------------------------------------------------------------------ *)
(** *** One attempt of a listing *)

(** What one attempt of [connect_and_list_devices] comes to, by what the
    request of its session ends with.  A request never yields a reply, so
    the branches of the code that read one are not taken. *)
Lemma connect_and_list_devices_cons (ses : session) (rest : list session)
  (k : nat) (g : globals) (tr : list socket_event) :
  let g1 := set_use_tag (_use_tag g + 1) g in
  let g2 := set_use_tag (_use_tag g + 1 + 1) g1 in
  let r := connect_and_list_devices (ses :: rest) k g tr in
  if connected ses then
    if _proto_version g =? 1 then
      let q := socket_list_devices (request ses) g1 fresh_socket
                 (_use_tag g + 1) in
      let tr1 :=
        tr ++ Opened k :: ListDevicesRequest k (_use_tag g + 1)
           :: request_events k q.1 in
      match q.2 with
      | Pending => r = (g1, tr1, NeverSettled) ∧ destroyed q.1 = false
      | Resolved SentVoid =>
          r = (g1, tr1, Unhandled TypeError) ∧ destroyed q.1 = false
      | Resolved (SentNumber z) =>
          z = - EPERM UsbmuxdErrno ∧
          r = connect_and_list_devices rest (S k)
                (if z =? usbmuxd_result_value RESULT_BADVERSION
                 then set_proto_version 0 g1 else g1)
                (tr1 ++ [Destroyed k])
      | Resolved (SentPlist _) => False
      end
    else
      let q := socket_listen (request ses) g2 fresh_socket
                 (_use_tag g + 1 + 1) in
      let tr1 :=
        tr ++ Opened k :: ListenRequest k (_use_tag g + 1 + 1)
           :: request_events k q.1 in
      match q.2 with
      | Pending => r = (g2, tr1, NeverSettled) ∧ destroyed q.1 = false
      | Resolved SentVoid =>
          r = (g2, tr1, Unhandled Error) ∧ destroyed q.1 = false
      | Resolved (SentNumber z) =>
          z = - EPERM UsbmuxdErrno ∧ destroyed q.1 = false ∧
          r = (g2, tr1 ++ [Destroyed k], Settled (ErrorNumber z))
      | Resolved (SentPlist _) => False
      end
  else r = (g, tr, Settled (ErrorNumber (- ENOENT UsbmuxdErrno))).
Proof.
  cbv zeta.
  change (connect_and_list_devices (ses :: rest) k g tr) with
    (match connect_usbmuxd_socket ses with
     | inr sfd => (g, tr, Settled (ErrorNumber sfd))
     | inl sfd =>
         let tr := tr ++ [Opened k] in
         let g := set_use_tag (_use_tag g + 1) g in
         let tag_ := _use_tag g in
         if _proto_version g =? 1 then
           let '(sfd, lsdev_result) :=
             socket_list_devices (request ses) g sfd tag_ in
           let tr := tr ++ ListDevicesRequest k tag_ :: request_events k sfd in
           match lsdev_result with
           | Pending => (g, tr, NeverSettled)
           | Resolved (SentPlist None) => (g, tr, Unhandled Error)
           | Resolved lsdev_result =>
               match number_of lsdev_result with
               | Some lsdev =>
                   let g :=
                     if lsdev =? usbmuxd_result_value RESULT_BADVERSION
                     then set_proto_version 0 g else g in
                   connect_and_list_devices rest (S k) g (tr ++ [Destroyed k])
               | None =>
                   match DeviceList lsdev_result with
                   | Throw e => (g, tr, Unhandled e)
                   | Normal (Some (PlistArray plist_devlist)) =>
                       match device_list_from_plist plist_devlist [] with
                       | None =>
                           (g, tr ++ [Destroyed k],
                            Settled (ErrorNumber (- EPERM UsbmuxdErrno)))
                       | Some device_list =>
                           (set_devices device_list g, tr ++ [Destroyed k],
                            Settled (DeviceArray device_list))
                       end
                   | Normal _ =>
                       (set_devices [] g, tr ++ [Destroyed k],
                        Settled (DeviceArray []))
                   end
               end
           end
         else
           let g := set_use_tag (_use_tag g + 1) g in
           let tag_ := _use_tag g in
           let '(sfd, listen_result) :=
             socket_listen (request ses) g sfd tag_ in
           let tr := tr ++ ListenRequest k tag_ :: request_events k sfd in
           match listen_result with
           | Pending => (g, tr, NeverSettled)
           | Resolved (SentPlist None) => (g, tr, Unhandled Error)
           | Resolved listen_result =>
               match number_of listen_result with
               | Some listen =>
                   let tr := tr ++ [Destroyed k] in
                   if (listen =? usbmuxd_result_value RESULT_BADVERSION)
                      && (_proto_version g =? 1)
                   then
                     connect_and_list_devices rest (S k)
                       (set_proto_version 0 g) tr
                   else (g, tr, Settled (ErrorNumber listen))
               | None =>
                   let '(g, _, tr, o) :=
                     recursively_get_device_list sfd k [] g tr in
                   (g, tr, o)
               end
           end
     end).
  unfold connect_usbmuxd_socket. destruct (connected ses); [|reflexivity].
  cbv zeta.
  change (_proto_version (set_use_tag (_use_tag g + 1) g))
    with (_proto_version g).
  change (_use_tag (set_use_tag (_use_tag g + 1) g)) with (_use_tag g + 1).
  destruct (_proto_version g =? 1) eqn:Hv.
  - pose proof (socket_list_devices_ends (request ses)
                  (set_use_tag (_use_tag g + 1) g) (_use_tag g + 1)) as H.
    destruct (socket_list_devices (request ses)
                (set_use_tag (_use_tag g + 1) g) fresh_socket (_use_tag g + 1))
      as [sfd q].
    cbn [fst snd] in H |- *.
    destruct H as [[-> Hd]|[[-> Hd]| ->]]; cbn [number_of DeviceList].
    + split; [|exact Hd]. by rewrite <- app_assoc.
    + split; [|exact Hd]. by rewrite <- app_assoc.
    + split; [reflexivity|]. by rewrite <- !app_assoc.
  - change (_use_tag (set_use_tag (_use_tag g + 1 + 1)
                        (set_use_tag (_use_tag g + 1) g)))
      with (_use_tag g + 1 + 1).
    change (_proto_version (set_use_tag (_use_tag g + 1 + 1)
                              (set_use_tag (_use_tag g + 1) g)))
      with (_proto_version g).
    pose proof (socket_listen_ends (request ses)
                  (set_use_tag (_use_tag g + 1 + 1)
                     (set_use_tag (_use_tag g + 1) g))
                  (_use_tag g + 1 + 1)) as H.
    destruct (socket_listen (request ses)
                (set_use_tag (_use_tag g + 1 + 1)
                   (set_use_tag (_use_tag g + 1) g))
                fresh_socket (_use_tag g + 1 + 1)) as [sfd q].
    cbn [fst snd] in H |- *.
    destruct H as [[-> Hd]|[[-> Hd]|[-> Hd]]]; cbn [number_of].
    + split; [|exact Hd]. by rewrite <- app_assoc.
    + split; [|exact Hd].
      unfold recursively_get_device_list, socket_receive_data.
      by rewrite <- app_assoc.
    + rewrite Hv, andb_false_r.
      split; [reflexivity|]. split.
      { apply Hd. cbn. intros H1. rewrite H1 in Hv. discriminate. }
      by rewrite <- !app_assoc.
Qed.

(* ------------------------------------------------------------------ *)
(** *** What a listing does to the module-level variables *)

(** A listing leaves the registry, the allocation count, the callback
    invocations, [_watching] and [_devices] alone, and either keeps
    [_proto_version] or sets it to 0. *)
Lemma connect_and_list_devices_fields (script : list session) :
  ∀ (k : nat) (g : globals) (tr : list socket_event),
    let g' := (connect_and_list_devices script k g tr).1.1 in
    _watching g' = _watching g ∧
    _listener_map g' = _listener_map g ∧
    allocated g' = allocated g ∧
    invoked g' = invoked g ∧
    (_proto_version g' = _proto_version g ∨ _proto_version g' = 0) ∧
    _devices g' = _devices g.
Proof.
  induction script as [|ses script IH]; intros k g tr; [simpl; auto 10|].
  cbv zeta.
  pose proof (connect_and_list_devices_cons ses script k g tr) as Hc.
  cbv zeta in Hc.
  destruct (connected ses); [|rewrite Hc; simpl; auto 10].
  destruct (_proto_version g =? 1).
  - destruct (socket_list_devices _ _ _ _) as [sfd [[|o|z]|]];
      cbn [fst snd] in Hc; try done.
    + destruct Hc as [-> _]. simpl. auto 10.
    + destruct Hc as [_ ->].
      match goal with
      | |- context [connect_and_list_devices script ?k' ?g1 ?tr'] =>
          destruct (IH k' g1 tr') as (H1 & H2 & H3 & H4 & H5 & H6);
          assert (Hg1 : _watching g1 = _watching g
                        ∧ _listener_map g1 = _listener_map g
                        ∧ allocated g1 = allocated g
                        ∧ invoked g1 = invoked g
                        ∧ (_proto_version g1 = _proto_version g
                           ∨ _proto_version g1 = 0)
                        ∧ _devices g1 = _devices g)
            by (destruct (z =? usbmuxd_result_value RESULT_BADVERSION);
                simpl; auto 10)
      end.
      destruct Hg1 as (G1 & G2 & G3 & G4 & G5 & G6).
      rewrite H1, H2, H3, H4, H6. repeat split; auto.
      destruct H5 as [H5|H5]; [rewrite H5; exact G5|by right].
    + destruct Hc as [-> _]. simpl. auto 10.
  - destruct (socket_listen _ _ _ _) as [sfd [[|o|z]|]];
      cbn [fst snd] in Hc; try done.
    + destruct Hc as [-> _]. simpl. auto 10.
    + destruct Hc as (_ & _ & ->). simpl. auto 10.
    + destruct Hc as [-> _]. simpl. auto 10.
Qed.

(* ------------------------------------------------------------------ *)
(** *** The events of a listing *)

Lemma tags_of_app (l1 l2 : list socket_event) :
  tags_of (l1 ++ l2) = tags_of l1 ++ tags_of l2.
Proof.
  induction l1 as [|e l1 IH]; [done|].
  destruct e; simpl; by rewrite IH.
Qed.

Lemma request_events_tags (k : nat) (sfd : Socket) :
  tags_of (request_events k sfd) = [].
Proof.
  unfold request_events. rewrite tags_of_app.
  assert (H : tags_of (map (Wrote k) (written sfd)) = []).
  { induction (written sfd) as [|chunk l IH]; [done|exact IH]. }
  rewrite H. by destruct (destroyed sfd).
Qed.

Lemma request_events_connection (k : nat) (sfd : Socket) :
  Forall (λ e, connection_of e = k) (request_events k sfd).
Proof.
  unfold request_events. apply Forall_app. split.
  - apply Forall_forall. intros e He.
    by apply list_elem_of_fmap in He as (chunk & -> & _).
  - destruct (destroyed sfd); repeat constructor.
Qed.

Lemma request_events_opened (k j : nat) (sfd : Socket) :
  Opened j ∉ request_events k sfd.
Proof.
  unfold request_events. rewrite elem_of_app. intros [H|H].
  - by apply list_elem_of_fmap in H as (chunk & [=] & _).
  - destruct (destroyed sfd); [|by apply elem_of_nil in H].
    by apply list_elem_of_singleton in H.
Qed.

Lemma request_events_destroyed (k j : nat) (sfd : Socket) :
  Destroyed j ∈ request_events k sfd → destroyed sfd = true.
Proof.
  unfold request_events. rewrite elem_of_app. intros [H|H].
  - by apply list_elem_of_fmap in H as (chunk & [=] & _).
  - destruct (destroyed sfd); [done|by apply elem_of_nil in H].
Qed.

(** The events of an attempt that sends [req] and ends there, the socket
    left open. *)
Lemma attempt_leaks (k : nat) (req : socket_event) (sfd : Socket) :
  (∀ j, req ≠ Destroyed j) →
  destroyed sfd = false →
  Opened k ∈ Opened k :: req :: request_events k sfd ∧
  Destroyed k ∉ Opened k :: req :: request_events k sfd.
Proof.
  intros Hreq Hd. split; [apply list_elem_of_here|].
  rewrite !elem_of_cons. intros [[=]|[H|H]].
  - by destruct (Hreq k).
  - apply request_events_destroyed in H. congruence.
Qed.

(** The events of an attempt that sends [req] and destroys its socket. *)
Lemma attempt_destroys (k j : nat) (req : socket_event) (sfd : Socket)
  (evs : list socket_event) :
  (∀ i, req ≠ Opened i) →
  (Opened j ∈ evs → Destroyed j ∈ evs) →
  Opened j ∈ Opened k :: req :: request_events k sfd ++ Destroyed k :: evs →
  Destroyed j ∈ Opened k :: req :: request_events k sfd ++ Destroyed k :: evs.
Proof.
  intros Hreq Hevs. rewrite !elem_of_cons, !elem_of_app, !elem_of_cons.
  intros [[= ->]|[H|[H|[[=]|H]]]].
  - right; right; right. by left.
  - by destruct (Hreq j).
  - by destruct (request_events_opened k j sfd).
  - right; right; right. right. by apply Hevs.
Qed.

(** The events a listing adds to its trace, connection by connection. *)
Lemma connect_and_list_devices_trace (script : list session) :
  ∀ (k : nat) (g : globals) (tr : list socket_event),
    let r := connect_and_list_devices script k g tr in
    ∃ evs,
      r.1.2 = tr ++ evs ∧
      Forall (λ e, (k ≤ connection_of e)%nat) evs ∧
      StronglySorted Z.lt (tags_of evs) ∧
      Forall (λ t, _use_tag g < t ≤ _use_tag r.1.1) (tags_of evs) ∧
      _use_tag g ≤ _use_tag r.1.1 ∧
      (unsettled r.2 = false → ∀ j, Opened j ∈ evs → Destroyed j ∈ evs) ∧
      (unsettled r.2 = true → ∃ j, Opened j ∈ evs ∧ Destroyed j ∉ evs) ∧
      (∀ device_list, r.2 ≠ Settled (DeviceArray device_list)).
Proof.
  assert (Hone : ∀ (k : nat) (g g' : globals) (req : socket_event)
                   (sfd : Socket) (t : Z),
    tags_of [req] = [t] → connection_of req = k →
    _use_tag g < t ≤ _use_tag g' →
    Forall (λ e, (k ≤ connection_of e)%nat)
      (Opened k :: req :: request_events k sfd) ∧
    StronglySorted Z.lt (tags_of (Opened k :: req :: request_events k sfd)) ∧
    Forall (λ t, _use_tag g < t ≤ _use_tag g')
      (tags_of (Opened k :: req :: request_events k sfd))).
  { intros k g g' req sfd t Ht Hk Hr.
    assert (Htags : tags_of (Opened k :: req :: request_events k sfd) = [t]).
    { change (Opened k :: req :: request_events k sfd)
        with ([Opened k] ++ [req] ++ request_events k sfd).
      by rewrite !tags_of_app, Ht, request_events_tags. }
    rewrite Htags. split; [|split; repeat constructor; lia].
    constructor; [simpl; lia|]. constructor; [lia|].
    eapply Forall_impl; [apply request_events_connection|].
    simpl. intros; lia. }
  induction script as [|ses script IH]; intros k g tr; cbv zeta.
  { exists []. simpl. rewrite app_nil_r.
    repeat split; try done; try constructor; try lia.
    intros _ j Hj. by apply elem_of_nil in Hj. }
  pose proof (connect_and_list_devices_cons ses script k g tr) as Hc.
  cbv zeta in Hc.
  destruct (connected ses).
  2:{ rewrite Hc. exists []. simpl. rewrite app_nil_r.
      repeat split; try done; try constructor; try lia.
      intros _ j Hj. by apply elem_of_nil in Hj. }
  destruct (_proto_version g =? 1).
  - destruct (socket_list_devices _ _ _ _) as [sfd [[|o|z]|]];
      cbn [fst snd] in Hc; try done.
    + (* answered: the reply is [undefined] *)
      destruct Hc as [-> Hd]. cbn [fst snd].
      destruct (Hone k g (set_use_tag (_use_tag g + 1) g)
                  (ListDevicesRequest k (_use_tag g + 1)) sfd (_use_tag g + 1))
        as (H2 & H3 & H4); [done|done|simpl; lia|].
      eexists. split; [reflexivity|]. split; [exact H2|].
      split; [exact H3|]. split; [exact H4|]. split; [simpl; lia|].
      split; [discriminate|]. split; [|discriminate].
      intros _. exists k. by apply attempt_leaks.
    + (* a number: the attempt is repeated *)
      destruct Hc as [_ ->].
      match goal with
      | |- context [connect_and_list_devices script ?k' ?g1 ?tr'] =>
          destruct (IH k' g1 tr')
            as (evs & H1 & H2 & H3 & H4 & H5 & H6 & H7 & H8);
          set (r := connect_and_list_devices script k' g1 tr') in *;
          assert (Ht : _use_tag g1 = _use_tag g + 1)
            by (by destruct (z =? usbmuxd_result_value RESULT_BADVERSION))
      end.
      rewrite Ht in H4, H5.
      exists (Opened k :: ListDevicesRequest k (_use_tag g + 1)
                :: request_events k sfd ++ Destroyed k :: evs).
      split.
      { rewrite H1, <- !app_assoc. simpl. by rewrite <- ?app_assoc. }
      assert (Htags :
        tags_of (Opened k :: ListDevicesRequest k (_use_tag g + 1)
                   :: request_events k sfd ++ Destroyed k :: evs)
        = (_use_tag g + 1) :: tags_of evs).
      { simpl. by rewrite tags_of_app, request_events_tags. }
      rewrite Htags. split.
      { constructor; [simpl; lia|]. constructor; [simpl; lia|].
        apply Forall_app. split.
        - eapply Forall_impl; [apply request_events_connection|].
          simpl. intros; lia.
        - constructor; [simpl; lia|].
          eapply Forall_impl; [exact H2|]. simpl. intros; lia. }
      split.
      { constructor; [exact H3|].
        eapply Forall_impl; [exact H4|]. simpl. intros; lia. }
      split.
      { constructor; [lia|].
        eapply Forall_impl; [exact H4|]. simpl. intros; lia. }
      split; [lia|]. split.
      { intros Hs j. apply attempt_destroys; [done|]. by apply H6. }
      split; [|exact H8].
      intros Hs. destruct (H7 Hs) as (j & Hj & Hnj).
      exists j. split.
      { do 2 apply list_elem_of_further. apply elem_of_app. right.
        by apply list_elem_of_further. }
      assert (Hkj : (S k ≤ j)%nat).
      { rewrite Forall_forall in H2. by apply H2 in Hj. }
      rewrite !elem_of_cons, elem_of_app, elem_of_cons.
      intros [[=]|[[=]|[H|[[= ->]|H]]]]; [|lia|done].
      pose proof (request_events_connection k sfd) as Hconn.
      rewrite Forall_forall in Hconn. apply Hconn in H. simpl in H. lia.
    + (* unanswered *)
      destruct Hc as [-> Hd]. cbn [fst snd].
      destruct (Hone k g (set_use_tag (_use_tag g + 1) g)
                  (ListDevicesRequest k (_use_tag g + 1)) sfd (_use_tag g + 1))
        as (H2 & H3 & H4); [done|done|simpl; lia|].
      eexists. split; [reflexivity|]. split; [exact H2|].
      split; [exact H3|]. split; [exact H4|]. split; [simpl; lia|].
      split; [discriminate|]. split; [|discriminate].
      intros _. exists k. by apply attempt_leaks.
  - set (g2 := set_use_tag (_use_tag g + 1 + 1)
                 (set_use_tag (_use_tag g + 1) g)) in *.
    destruct (socket_listen _ _ _ _) as [sfd [[|o|z]|]];
      cbn [fst snd] in Hc; try done.
    + (* answered: [socket_receive_data] throws *)
      destruct Hc as [-> Hd]. cbn [fst snd].
      destruct (Hone k g g2 (ListenRequest k (_use_tag g + 1 + 1)) sfd
                  (_use_tag g + 1 + 1))
        as (H2 & H3 & H4); [done|done|simpl; lia|].
      eexists. split; [reflexivity|]. split; [exact H2|].
      split; [exact H3|]. split; [exact H4|]. split; [simpl; lia|].
      split; [discriminate|]. split; [|discriminate].
      intros _. exists k. by apply attempt_leaks.
    + (* a number: the call resolves with it *)
      destruct Hc as (_ & Hd & ->). cbn [fst snd].
      destruct (Hone k g g2 (ListenRequest k (_use_tag g + 1 + 1)) sfd
                  (_use_tag g + 1 + 1))
        as (H2 & H3 & H4); [done|done|simpl; lia|].
      exists (Opened k :: ListenRequest k (_use_tag g + 1 + 1)
                :: request_events k sfd ++ [Destroyed k]).
      split; [by rewrite <- app_assoc|].
      assert (Htags :
        tags_of (Opened k :: ListenRequest k (_use_tag g + 1 + 1)
                   :: request_events k sfd ++ [Destroyed k])
        = tags_of (Opened k :: ListenRequest k (_use_tag g + 1 + 1)
                     :: request_events k sfd)).
      { simpl. rewrite tags_of_app. simpl. by rewrite app_nil_r. }
      rewrite Htags. split.
      { change (Opened k :: ListenRequest k (_use_tag g + 1 + 1)
                  :: request_events k sfd ++ [Destroyed k])
          with ((Opened k :: ListenRequest k (_use_tag g + 1 + 1)
                   :: request_events k sfd) ++ [Destroyed k]).
        apply Forall_app. split; [exact H2|]. repeat constructor. }
      split; [exact H3|]. split; [exact H4|]. split; [simpl; lia|].
      split.
      { intros _ j. apply attempt_destroys; [done|].
        intros Hj. by apply elem_of_nil in Hj. }
      split; [discriminate|discriminate].
    + (* unanswered *)
      destruct Hc as [-> Hd]. cbn [fst snd].
      destruct (Hone k g g2 (ListenRequest k (_use_tag g + 1 + 1)) sfd
                  (_use_tag g + 1 + 1))
        as (H2 & H3 & H4); [done|done|simpl; lia|].
      eexists. split; [reflexivity|]. split; [exact H2|].
      split; [exact H3|]. split; [exact H4|]. split; [simpl; lia|].
      split; [discriminate|]. split; [|discriminate].
      intros _. exists k. by apply attempt_leaks.
Qed.

Lemma perform_fields (c : call) (g : globals) :
  let g' := (perform c g).1 in
  (_proto_version g' = _proto_version g ∨ _proto_version g' = 0) ∧
  (allocated g ≤ allocated g')%nat ∧
  (handles_allocated g → handles_allocated g') ∧
  (∀ h, (perform c g).2 = subscribed (inl h) →
        h = allocated g ∧ allocated g' = S (allocated g)).
Proof.
  destruct c as [cb ud|h|script|watching devices]; simpl.
  - rewrite usbmuxd_events_subscribe_eq. simpl.
    split; [tauto|]. split; [lia|]. split.
    + unfold handles_allocated. simpl.
      intros Hwf h. rewrite lookup_insert_is_Some.
      intros [<-|[_ Hh]]; [lia|]. apply Hwf in Hh. lia.
    + by intros h [= <-].
  - pose proof (usbmuxd_events_unsubscribe_fields h g) as Hf.
    destruct (usbmuxd_events_unsubscribe h g) as [g' r]. simpl in Hf |- *.
    destruct Hf as (_ & _ & Hv & _ & Ha & Hm).
    split; [tauto|]. split; [lia|]. split; [|discriminate].
    intros Hwf h' Hh'. rewrite Ha. by apply Hwf, Hm.
  - unfold usbmuxd_get_device_list.
    pose proof (connect_and_list_devices_fields script 0%nat g []) as Hf.
    destruct (connect_and_list_devices script 0 g []) as [[g' tr] o].
    simpl in Hf |- *. destruct Hf as (_ & Hm & Ha & _ & Hv & _).
    split; [tauto|]. split; [lia|]. split; [|discriminate].
    intros Hwf h'. rewrite Hm, Ha. apply Hwf.
  - split; [tauto|]. split; [lia|]. split; [|discriminate].
    intros Hwf h'. apply Hwf.
Qed.

Lemma run_cons (c : call) (calls : list call) (g : globals) :
  run (c :: calls) g =
  ((run calls (perform c g).1).1,
   (perform c g).2 :: (run calls (perform c g).1).2).
Proof.
  change (run (c :: calls) g)
    with (let '(g1, r) := perform c g in
          let '(g2, rs) := run calls g1 in (g2, r :: rs)).
  destruct (perform c g) as [g1 r]. cbn [fst snd].
  by destruct (run calls g1) as [g2 rs].
Qed.

Lemma run_fields (calls : list call) :
  ∀ g : globals,
    let g' := (run calls g).1 in
    (_proto_version g' = _proto_version g ∨ _proto_version g' = 0) ∧
    (allocated g ≤ allocated g')%nat ∧
    (handles_allocated g → handles_allocated g') ∧
    Forall (λ h, (allocated g ≤ h < allocated g')%nat)
      (handles_of (run calls g).2) ∧
    NoDup (handles_of (run calls g).2).
Proof.
  induction calls as [|c calls IH]; intros g.
  - simpl. repeat split; try tauto; try lia; constructor.
  - rewrite run_cons. cbv zeta. simpl fst. simpl snd.
    destruct (perform_fields c g) as (Hv & Ha & Hwf & Hh).
    destruct (IH (perform c g).1) as (Hv' & Ha' & Hwf' & Hh' & Hnd).
    split.
    { destruct Hv as [Hv|Hv], Hv' as [Hv'|Hv'];
        [left|right|right|right]; congruence. }
    split; [lia|]. split; [tauto|].
    destruct ((perform c g).2) as [[h|z]|z|o|] eqn:Hr; simpl.
    + destruct (Hh h eq_refl) as [-> Hs]. split.
      * constructor; [lia|].
        eapply Forall_impl; [exact Hh'|]. simpl. intros; lia.
      * constructor; [|exact Hnd].
        intros Hin. rewrite Forall_forall in Hh'. apply Hh' in Hin. lia.
    + split; [|exact Hnd].
      eapply Forall_impl; [exact Hh'|]. simpl. intros; lia.
    + split; [|exact Hnd].
      eapply Forall_impl; [exact Hh'|]. simpl. intros; lia.
    + split; [|exact Hnd].
      eapply Forall_impl; [exact Hh'|]. simpl. intros; lia.
    + split; [|exact Hnd].
      eapply Forall_impl; [exact Hh'|]. simpl. intros; lia.
Qed.

Lemma handles_allocated_initial : handles_allocated initial_globals.
Proof. intros h [c Hc]. simpl in Hc. by rewrite lookup_empty in Hc. Qed.

(** C4.  [_proto_version] is 1 when the module is loaded.  After any
    sequence of calls it is 1 or 0; any further sequence of calls either
    leaves it as it is or sets it to 0, so that once it is 0 it stays 0. *)
Theorem proto_version_only_downgrades (calls1 calls2 : list call) :
  let g1 := (run calls1 initial_globals).1 in
  let g2 := (run calls2 g1).1 in
  _proto_version initial_globals = 1 ∧
  (_proto_version g1 = 1 ∨ _proto_version g1 = 0) ∧
  (_proto_version g2 = _proto_version g1 ∨ _proto_version g2 = 0) ∧
  (_proto_version g1 = 0 → _proto_version g2 = 0).
Proof.
  intros g1 g2.
  destruct (run_fields calls1 initial_globals) as (H1 & _).
  destruct (run_fields calls2 g1) as (H2 & _).
  fold g1 in H1. fold g2 in H2. simpl in H1.
  repeat split; [exact H1|exact H2|].
  intros H0. destruct H2 as [H2|H2]; congruence.
Qed.

(** C10.  After any sequence of calls, [usbmuxd_events_subscribe] returns a
    handle and never a number.  The handle was not registered before and
    differs from every handle an earlier subscribe call of the sequence
    returned; the pair of callback and user data is registered under it and
    every other registration is kept; [_devices] is unchanged.  The callback
    invocations made by the call are one UE_DEVICE_ADD event per device when
    [_watching] is set, and none when it is not. *)
Theorem usbmuxd_events_subscribe_spec (calls : list call)
  (cb : usbmuxd_event_cb_t) (ud : ArrayBuffer) :
  let g := (run calls initial_globals).1 in
  let earlier := handles_of (run calls initial_globals).2 in
  ∃ (h : usbmuxd_subscription_context_t) (g' : globals),
    usbmuxd_events_subscribe cb ud g = (g', inl h) ∧
    (h ∉ earlier) ∧
    NoDup (earlier ++ [h]) ∧
    _listener_map g !! h = None ∧
    _listener_map g' = <[h := mk_context cb ud]> (_listener_map g) ∧
    _devices g' = _devices g ∧
    invoked g' =
      invoked g ++
      (if _watching g
       then map (λ d, mk_call cb (mk_event UE_DEVICE_ADD d) (Some ud))
              (_devices g)
       else []).
Proof.
  intros g earlier.
  destruct (run_fields calls initial_globals) as (_ & _ & Hwf & Hh & Hnd).
  fold g in Hwf, Hh. fold earlier in Hh, Hnd.
  specialize (Hwf handles_allocated_initial).
  assert (Hfresh : allocated g ∉ earlier).
  { intros Hin. rewrite Forall_forall in Hh. apply Hh in Hin. lia. }
  exists (allocated g). eexists.
  split; [apply usbmuxd_events_subscribe_eq|]. simpl.
  split; [exact Hfresh|].
  split.
  { apply NoDup_app. split; [exact Hnd|]. split; [|apply NoDup_singleton].
    intros x Hx Hx'. apply list_elem_of_singleton in Hx'. by subst. }
  split; [|done].
  destruct (_listener_map g !! allocated g) eqn:Hl; [|done].
  assert (allocated g < allocated g)%nat by (apply Hwf; eauto). lia.
Qed.

(** C3 (as the code has it).  At a subscribe call the new callback is
    invoked with one UE_DEVICE_ADD event per device of [_devices] when
    [_watching] is set, and is not invoked when it is not set.  At the
    unsubscribe call of a registered handle the registered callback is
    invoked with one UE_DEVICE_REMOVE event per device of [_devices], whether
    [_watching] is set or not.  The two numbers of events are equal when
    [_watching] was set at the subscribe call and [_devices] holds as many
    devices at the unsubscribe call as it did at the subscribe call. *)
Theorem subscribe_unsubscribe_replay (g g2 : globals)
  (cb : usbmuxd_event_cb_t) (ud : ArrayBuffer)
  (h : usbmuxd_subscription_context_t) :
  _listener_map g2 !! h = Some (mk_context cb ud) →
  let g1 := (usbmuxd_events_subscribe cb ud g).1 in
  let g3 := (usbmuxd_events_unsubscribe h g2).1 in
  let adds := drop (length (invoked g)) (invoked g1) in
  let removes := drop (length (invoked g2)) (invoked g3) in
  adds = (if _watching g
          then map (λ d, mk_call cb (mk_event UE_DEVICE_ADD d) (Some ud))
                 (_devices g)
          else []) ∧
  removes = map (λ d, mk_call cb (mk_event UE_DEVICE_REMOVE d) None)
              (_devices g2) ∧
  length adds = (if _watching g then length (_devices g) else 0%nat) ∧
  length removes = length (_devices g2) ∧
  (_watching g = true → length (_devices g) = length (_devices g2) →
   length adds = length removes).
Proof.
  intros Hreg g1 g3 adds removes.
  assert (Ha : adds =
    (if _watching g
     then map (λ d, mk_call cb (mk_event UE_DEVICE_ADD d) (Some ud))
            (_devices g)
     else [])).
  { unfold adds, g1. rewrite usbmuxd_events_subscribe_eq. simpl.
    by rewrite drop_app_length. }
  assert (Hr : removes =
    map (λ d, mk_call cb (mk_event UE_DEVICE_REMOVE d) None) (_devices g2)).
  { unfold removes, g3, usbmuxd_events_unsubscribe. rewrite Hreg.
    rewrite submit_events_eq. simpl. by rewrite drop_app_length. }
  split; [exact Ha|]. split; [exact Hr|].
  assert (Hla : length adds = (if _watching g then length (_devices g) else 0%nat)).
  { rewrite Ha. destruct (_watching g); [by rewrite length_map|done]. }
  assert (Hlr : length removes = length (_devices g2))
    by (by rewrite Hr, length_map).
  split; [exact Hla|]. split; [exact Hlr|].
  intros Hw Hlen. rewrite Hla, Hlr, Hw. exact Hlen.
Qed.

(* ------------------------------------------------------------------ *)
(** *** Listings *)

(** The message of a ListDevices request can be built. *)
Lemma create_plist_message_ListDevices :
  is_Some (create_plist_message "ListDevices").
Proof. by eexists. Qed.

(** A header that cannot be written: ListDevices ends with [-EPERM]. *)
Lemma socket_list_devices_refused (env : send_script) (g : globals)
  (sfd : Socket) (tag_ : Z) :
  socket_send_raw_data (header_write env) = false →
  (socket_list_devices env g sfd tag_).2
  = Resolved (SentNumber (- EPERM UsbmuxdErrno)).
Proof.
  intros Hw. unfold socket_list_devices.
  destruct create_plist_message_ListDevices as [m ->].
  unfold socket_send_plist, socket_send_data. by rewrite Hw.
Qed.

(** A header that is written: under a version other than 1, Listen does not
    end with a number. *)
Lemma socket_listen_header_sent (env : send_script) (g : globals)
  (sfd : Socket) (tag_ z : Z) :
  _proto_version g ≠ 1 →
  socket_send_raw_data (header_write env) = true →
  (socket_listen env g sfd tag_).2 ≠ Resolved (SentNumber z).
Proof.
  intros Hv Hw. apply Z.eqb_neq in Hv.
  unfold socket_listen, socket_send_data. rewrite Hv, Hw. simpl.
  by destruct (data_event env).
Qed.

(** An attempt under a version other than 1 is the last one: it does not
    look at the rest of the script. *)
Lemma legacy_attempt_is_final (ses : session) (rest : list session)
  (k : nat) (g : globals) (tr : list socket_event) :
  _proto_version g ≠ 1 →
  let r := connect_and_list_devices (ses :: rest) k g tr in
  r = connect_and_list_devices [ses] k g tr ∧
  r.2 ≠ Reconnecting ∧
  _proto_version r.1.1 = _proto_version g.
Proof.
  intros Hv. cbv zeta. apply Z.eqb_neq in Hv.
  pose proof (connect_and_list_devices_cons ses rest k g tr) as H1.
  pose proof (connect_and_list_devices_cons ses [] k g tr) as H2.
  cbv zeta in H1, H2. rewrite Hv in H1, H2.
  destruct (connected ses); [|by rewrite H1, H2].
  destruct (socket_listen _ _ _ _) as [sfd [[|o|z]|]];
    cbn [fst snd] in H1, H2; try done.
  - destruct H1 as [-> _]. by destruct H2 as [-> _].
  - destruct H1 as (_ & _ & ->). by destruct H2 as (_ & _ & ->).
  - destruct H1 as [-> _]. by destruct H2 as [-> _].
Qed.



(** As long as the header of ListDevices cannot be written and [-EPERM] is
    not BADVERSION, the listing keeps opening connections at version 1:
    however many such sessions the script holds, the call uses them all up
    and asks for one more. *)
Lemma write_failure_is_retried_without_bound (env : send_script) (n : nat) :
  socket_send_raw_data (header_write env) = false →
  - EPERM UsbmuxdErrno ≠ usbmuxd_result_value RESULT_BADVERSION →
  ∀ (k : nat) (g : globals) (tr : list socket_event),
    _proto_version g = 1 →
    let r := connect_and_list_devices (replicate n (mk_session true env)) k g tr in
    r.2 = Reconnecting ∧ _proto_version r.1.1 = 1.
Proof.
  intros Hw Hne. induction n as [|n IH]; intros k g tr Hv; [done|].
  cbv zeta. change (replicate (S n) ?x) with (x :: replicate n x).
  pose proof (connect_and_list_devices_cons (mk_session true env)
                (replicate n (mk_session true env)) k g tr) as Hc.
  cbv zeta in Hc. cbn [connected request] in Hc. rewrite Hv in Hc.
  cbn [Z.eqb Pos.eqb] in Hc.
  rewrite (surjective_pairing (socket_list_devices _ _ _ _)) in Hc.
  rewrite (socket_list_devices_refused env _ _ _ Hw) in Hc.
  cbn [fst snd] in Hc. destruct Hc as [_ ->].
  apply Z.eqb_neq in Hne. rewrite Hne. by apply IH.
Qed.

(** C1 (at its failing inputs).  Under version 1, on an established
    connection, by what the ListDevices request ends with.
    - The daemon answers.  [socket_send_data] settles its promise without
      the reply, so the listing reads [DeviceList] of [undefined] and throws
      a TypeError: whatever the reply held, BADVERSION or another result
      code, the caller's promise is never settled, [_proto_version] keeps
      its value and no second connection is opened.
    - Nothing arrives: the call waits for ever.
    - The request cannot be written.  The helper yields [-EPERM], the only
      number it ever yields.  The listing does not resolve with it: it
      destroys the socket and starts over on a new connection, at version 1
      unless [-EPERM] is BADVERSION; and while the header cannot be written
      it keeps reconnecting. *)
Theorem list_devices_reply_is_never_read (g : globals) (ses : session)
  (rest : list session) :
  connected ses = true →
  _proto_version g = 1 →
  let g1 := set_use_tag (_use_tag g + 1) g in
  let q := socket_list_devices (request ses) g1 fresh_socket
             (_use_tag g + 1) in
  let sent :=
    Opened 0 :: ListDevicesRequest 0 (_use_tag g + 1)
      :: request_events 0 q.1 in
  let r := usbmuxd_get_device_list (ses :: rest) g in
  (q.2 = Resolved SentVoid →
     r = (g1, sent, Unhandled TypeError) ∧ destroyed q.1 = false) ∧
  (q.2 = Pending → r = (g1, sent, NeverSettled) ∧ destroyed q.1 = false) ∧
  (∀ z, q.2 = Resolved (SentNumber z) →
     z = - EPERM UsbmuxdErrno ∧
     r = connect_and_list_devices rest 1
           (if z =? usbmuxd_result_value RESULT_BADVERSION
            then set_proto_version 0 g1 else g1)
           (sent ++ [Destroyed 0])) ∧
  (∀ o, q.2 ≠ Resolved (SentPlist o)) ∧
  (socket_send_raw_data (header_write (request ses)) = false →
   - EPERM UsbmuxdErrno ≠ usbmuxd_result_value RESULT_BADVERSION →
   ∀ n, (usbmuxd_get_device_list (replicate n ses) g).2 = Reconnecting).
Proof.
  intros Hconn Hv. cbv zeta. unfold usbmuxd_get_device_list.
  pose proof (connect_and_list_devices_cons ses rest 0%nat g []) as Hc.
  cbv zeta in Hc. rewrite Hconn, Hv in Hc. cbn [Z.eqb Pos.eqb app] in Hc.
  split; [|split; [|split; [|split]]].
  - intros Hq. by rewrite Hq in Hc.
  - intros Hq. by rewrite Hq in Hc.
  - intros z Hq. by rewrite Hq in Hc.
  - intros o Hq. by rewrite Hq in Hc.
  - intros Hw Hne n. destruct ses as [c env]. simpl in Hconn, Hw. subst c.
    by apply write_failure_is_retried_without_bound.
Qed.


(** C5 (at its failing inputs).  When every connection is established and
    every header is written, so that the daemon gets the request, the
    listing does not resolve with an error number, whatever the daemon's
    reply holds: the caller's promise is left unsettled.  No listing
    resolves with a list of devices or changes [_devices]. *)
Theorem listing_reports_no_decode_error (g : globals)
  (script : list session) :
  Forall (λ ses, connected ses = true
                 ∧ socket_send_raw_data (header_write (request ses)) = true)
    script →
  let r := usbmuxd_get_device_list script g in
  (∀ z, r.2 ≠ Settled (ErrorNumber z)) ∧
  (∀ device_list, r.2 ≠ Settled (DeviceArray device_list)) ∧
  _devices r.1.1 = _devices g.
Proof.
  intros Hall. cbv zeta. unfold usbmuxd_get_device_list.
  split; [|split].
  - generalize 0%nat as k, (@nil socket_event) as tr. revert g.
    induction Hall as [|ses script [Hconn Hw] _ IH]; intros g k tr z;
      [done|].
    pose proof (connect_and_list_devices_cons ses script k g tr) as Hc.
    cbv zeta in Hc. rewrite Hconn in Hc.
    destruct (_proto_version g =? 1) eqn:Hv.
    + destruct (socket_list_devices _ _ _ _) as [sfd [[|o|z']|]];
        cbn [fst snd] in Hc; try done.
      * by destruct Hc as [-> _].
      * destruct Hc as [_ ->]. apply IH.
      * by destruct Hc as [-> _].
    + pose proof (socket_listen_header_sent (request ses)
                    (set_use_tag (_use_tag g + 1 + 1)
                       (set_use_tag (_use_tag g + 1) g))
                    fresh_socket (_use_tag g + 1 + 1)) as Hl.
      destruct (socket_listen _ _ _ _) as [sfd [[|o|z']|]];
        cbn [fst snd] in Hc, Hl; try done.
      * by destruct Hc as [-> _].
      * destruct (Hl z'); [|done|done].
        cbn. intros H1. rewrite H1 in Hv. discriminate.
      * by destruct Hc as [-> _].
  - destruct (connect_and_list_devices_trace script 0%nat g [])
      as (evs & _ & _ & _ & _ & _ & _ & _ & H). exact H.
  - apply connect_and_list_devices_fields.
Qed.

(* ================================================================== *)
(** ** Further properties *)

(* ------------------------------------------------------------------ *)
(** *** The type guards *)

(** X1.  A value passes at most one of [isNull], [isUndefined], [isNumber],
    [isBoolean], [isString] and [isRecord]; the values that pass none are
    NaN, the symbols and the bigints. *)
Theorem type_guards_exclusive (x : type_guard.unknown) :
  let passed :=
    filter (λ b : bool, b = true)
      [ type_guard.isNull x; type_guard.isUndefined x; type_guard.isNumber x;
        type_guard.isBoolean x; type_guard.isString x; type_guard.isRecord x ]
  in
  (length passed ≤ 1)%nat ∧
  (passed = [] ↔
     x = type_guard.js_number NaN ∨ (∃ d, x = type_guard.js_symbol d)
     ∨ (∃ z, x = type_guard.js_bigint z)).
Proof.
  destruct x as [| |[z|]| | | | | | | | | |]; cbv zeta;
    (split; [vm_compute; lia|]);
    (split; [try (by vm_compute); intros _; eauto|]);
    try (intros [?|[[? ?]|[? ?]]]; done).
Qed.

(** X3.  [isRecord] holds exactly for functions and for objects other than
    [null]; [isError] holds exactly for the instances of Error, so its
    [isRecord] test never decides. *)
Theorem isRecord_isError_spec (x : type_guard.unknown) :
  (type_guard.isRecord x = true ↔
     type_guard.typeof x = "function"%string
     ∨ (type_guard.typeof x = "object"%string ∧ x ≠ type_guard.js_null)) ∧
  (type_guard.isError x = true ↔ ∃ message_, x = type_guard.js_error message_) ∧
  (type_guard.isError x = true → type_guard.isRecord x = true).
Proof.
  destruct x; repeat split; try (by vm_compute);
    try (intros [?|[? ?]]; done); try (intros [? [=]]; fail);
    try (intros _; eauto; fail);
    try (intros _; right; split; done).
Qed.

(** X5.  On the values [plist.parse] yields and on a missing property, the
    guards of type_guard.ts decide as [device_info_from_plist] needs them:
    [isNumber] accepts the numbers other than NaN, [isString] the strings,
    and [isRecord] everything but strings, numbers, booleans and
    [undefined]. *)
Theorem type_guards_on_plist_values (x : option PlistValue) :
  type_guard.isNumber (unknown_of_property x) = isNumber x ∧
  type_guard.isString (unknown_of_property x) = isString x ∧
  (type_guard.isRecord (unknown_of_property x) = false ↔
     x = None ∨ (∃ s, x = Some (PlistString s))
     ∨ (∃ n, x = Some (PlistNumber n)) ∨ (∃ b, x = Some (PlistBoolean b))).
Proof.
  destruct x as [[s|[z|]|b|t|bytes|l|o]|]; simpl;
    repeat split; try (by vm_compute);
    try (intros _; eauto 6; fail);
    try (intros [?|[[? ?]|[[? ?]|[? ?]]]]; done).
Qed.

(* ------------------------------------------------------------------ *)
(** *** Logging *)

(** X6.  [libusbmuxd_set_debug_level] changes nothing: whatever levels are
    set, [_log_level_limit] is still 0, so a message of a level above 0 is
    never printed and an error always is, with the package name in front. *)
Theorem debug_level_is_fixed (levels : list Z) :
  let limit :=
    foldl (λ l level, libusbmuxd_set_debug_level level l)
      initial_log_level_limit levels in
  limit = 0 ∧
  (∀ level args out, 0 < level → LIBUSBMUXD_DEBUG limit level args out = out) ∧
  (∀ args out,
     LIBUSBMUXD_ERROR limit args out = out ++ ["[libusbmuxd]"%string :: args]).
Proof.
  cbv zeta.
  assert (G : ∀ l0, foldl (λ l level, libusbmuxd_set_debug_level level l)
                      l0 levels = l0).
  { induction levels as [|level levels IH]; intros l0; [done|].
    simpl. apply IH. }
  assert (H : foldl (λ l level, libusbmuxd_set_debug_level level l)
                initial_log_level_limit levels = 0) by apply G.
  rewrite H. split; [done|]. split.
  - intros level args out Hl. unfold LIBUSBMUXD_DEBUG.
    destruct (level <=? 0) eqn:E; [|done]. apply Z.leb_le in E. lia.
  - done.
Qed.

(** X7.  [device_info_from_plist] reports every test a record fails, not
    only the first: with errors printed ([_log_level_limit] at least 0) it
    prints one line per failed test, each with the package name in front,
    and it returns a device exactly when it printed nothing.  What it
    returns does not depend on the logging. *)
Theorem device_info_from_plist_logs_every_failure (_log_level_limit : Z)
  (props : PlistObject) (out : console) :
  0 ≤ _log_level_limit →
  let r := device_info_from_plist_logged _log_level_limit props out in
  r.1 = device_info_from_plist props ∧
  ∃ lines : console,
    r.2 = out ++ lines ∧
    length lines = failed_tests props ∧
    (is_Some r.1 ↔ lines = []) ∧
    Forall (λ line, head line = Some "[libusbmuxd]"%string) lines.
Proof.
  intros Hl r. unfold r, device_info_from_plist_logged, device_info_from_plist,
    failed_tests, LIBUSBMUXD_ERROR, LIBUSBMUXD_DEBUG.
  apply Z.leb_le in Hl. rewrite Hl. clear Hl.
  destruct (isNumber (props !! "DeviceID"%string));
    destruct (isNumber (props !! "ProductID"%string));
    destruct (isString (props !! "SerialNumber"%string));
    destruct (eq_string_literal (props !! "ConnectionType"%string) "USB");
    destruct (eq_string_literal (props !! "ConnectionType"%string) "Network");
    destruct (instanceof_Uint8Array (props !! "NetworkAddress"%string));
    cbn -[String.append]; (split; [reflexivity|]);
    rewrite <- ?app_assoc; eexists;
    (split; [first [reflexivity | symmetry; apply app_nil_r]|]);
    (split; [reflexivity|]);
    (split; [split; [first [done | by intros [? [=]]]
                    |first [by eauto | by intros [=]]]|]);
    repeat constructor.
Qed.

(* ------------------------------------------------------------------ *)
(** *** Lookup options *)

Lemma lookup_option_bit (o o' : usbmux_lookup_options) :
  Z.land (usbmux_lookup_options_value o') (usbmux_lookup_options_value o) =
  if bool_decide (o' = o) then usbmux_lookup_options_value o else 0.
Proof. by destruct o, o'. Qed.

(** X8.  The three lookup options are distinct single bits: an or-combination
    of options, and-ed with one option, gives that option back when it is
    part of the combination and 0 when it is not; the combination is 0
    exactly when no option was given. *)
Theorem lookup_options_are_flags (l : list usbmux_lookup_options)
  (o : usbmux_lookup_options) :
  Z.land (or_options l) (usbmux_lookup_options_value o) =
    (if bool_decide (o ∈ l) then usbmux_lookup_options_value o else 0) ∧
  (or_options l = 0 ↔ l = []).
Proof.
  split.
  - induction l as [|o' l IH]; [done|].
    simpl. rewrite Z.land_lor_distr_l, IH, lookup_option_bit.
    destruct (decide (o' = o)) as [->|Hne].
    + rewrite bool_decide_eq_true_2 by done.
      rewrite (bool_decide_eq_true_2 (o ∈ o :: l)) by apply list_elem_of_here.
      destruct (bool_decide (o ∈ l)); [apply Z.lor_diag|apply Z.lor_0_r].
    + rewrite (bool_decide_eq_false_2 (o' = o)) by done.
      rewrite Z.lor_0_l.
      destruct (decide (o ∈ l)) as [Hin|Hnin].
      * rewrite !bool_decide_eq_true_2; [done|by apply list_elem_of_further|done].
      * rewrite !bool_decide_eq_false_2; [done| |done].
        rewrite elem_of_cons. intros [->|?]; done.
  - split; [|by intros ->].
    destruct l as [|o' l]; [done|]. simpl. intros H.
    apply Z.lor_eq_0_iff in H as [H _]. by destruct o'.
Qed.

(* ------------------------------------------------------------------ *)
(** *** Sending *)

(** X9.  Whatever the four fields of a header hold (negative or beyond 32
    bits), its encoding is sixteen bytes, each in the range of a byte, and a
    field reads back as its value modulo 2^32. *)
Theorem header_data_is_sixteen_bytes (h : usbmuxd_header) :
  length (header_data h) = 16%nat ∧
  Forall (λ b, 0 ≤ b < 256) (header_data h) ∧
  getUint32 0 (header_data h) = Some (length_ h mod 2 ^ 32) ∧
  getUint32 4 (header_data h) = Some (version h mod 2 ^ 32) ∧
  getUint32 8 (header_data h) = Some (message h mod 2 ^ 32) ∧
  getUint32 12 (header_data h) = Some (tag h mod 2 ^ 32).
Proof.
  split; [by rewrite header_data_bytes|]. split.
  - rewrite header_data_bytes. cbv zeta.
    repeat constructor; apply Z.mod_pos_bound; lia.
  - apply header_data_fields.
Qed.

(** X10.  The tag goes on the wire modulo 2^32: two requests whose tags
    differ by a multiple of 2^32 write the same bytes and end the same
    way. *)
Theorem socket_send_data_tag_wraps (env : send_script) (g : globals)
  (sfd : Socket) (msg : usbmuxd_msgtype) (tag_ k : Z)
  (data : option ArrayBuffer) :
  socket_send_data env g sfd msg (tag_ + k * 2 ^ 32) data =
  socket_send_data env g sfd msg tag_ data.
Proof.
  unfold socket_send_data.
  assert (H : header_data (make_header g msg (tag_ + k * 2 ^ 32) data) =
              header_data (make_header g msg tag_ data)).
  { rewrite !header_data_bytes. simpl. unfold ToUint32.
    by rewrite Z.mod_add by lia. }
  by rewrite H.
Qed.

(** X11.  How [socket_send_data] fails.  It resolves with [-EPERM] exactly
    when the write of the header fails, or the payload is not empty and its
    write fails.  In the first case only the header has been handed to the
    socket and the socket is not destroyed; in the second the header and the
    payload have been handed over and the socket is destroyed.  In no other
    case is the socket destroyed. *)
Theorem socket_send_data_failure (env : send_script) (g : globals)
  (sfd : Socket) (msg : usbmuxd_msgtype) (tag_ : Z)
  (data : option ArrayBuffer) :
  let r := socket_send_data env g sfd msg tag_ data in
  let payload := default [] data in
  let header_sent := socket_send_raw_data (header_write env) in
  let data_failed :=
    negb (bool_decide (payload = []))
    && negb (socket_send_raw_data (data_write env)) in
  (r.2 = Resolved (SendNumber (- EPERM UsbmuxdErrno)) ↔
     header_sent = false ∨ data_failed = true) ∧
  destroyed r.1 = destroyed sfd || (header_sent && data_failed) ∧
  length (written r.1) =
    (length (written sfd)
     + if header_sent && negb (bool_decide (payload = [])) then 2 else 1)%nat.
Proof.
  cbv zeta. unfold socket_send_data.
  destruct (socket_send_raw_data (header_write env)); simpl.
  - destruct data as [[|b d]|]; simpl.
    + destruct (data_event env); simpl; rewrite ?orb_false_r, ?length_app;
        simpl; repeat split; try done; try lia; intros [?|?]; done.
    + destruct (socket_send_raw_data (data_write env)); simpl;
        [destruct (data_event env)|]; simpl;
        rewrite ?orb_false_r, ?orb_true_r, ?length_app; simpl;
        rewrite ?length_app; simpl;
        repeat split; try done; try lia; try (intros [?|?]; done); eauto.
    + destruct (data_event env); simpl; rewrite ?orb_false_r, ?length_app;
        simpl; repeat split; try done; try lia; intros [?|?]; done.
  - rewrite orb_false_r, length_app. simpl.
    repeat split; try done; try lia; eauto.
Qed.

(** X12.  An empty payload is no payload: the request is the header alone,
    with 16 in its length field, as for a request without data. *)
Theorem socket_send_data_empty_payload (env : send_script) (g : globals)
  (sfd : Socket) (msg : usbmuxd_msgtype) (tag_ : Z) :
  socket_send_data env g sfd msg tag_ (Some []) =
    socket_send_data env g sfd msg tag_ None ∧
  written (socket_send_data env g sfd msg tag_ (Some [])).1 =
    written sfd ++ [header_data (make_header g msg tag_ None)] ∧
  length_ (make_header g msg tag_ None) = 16.
Proof.
  split; [reflexivity|]. split; [|reflexivity].
  unfold socket_send_data.
  destruct (socket_send_raw_data (header_write env)); simpl; [|done].
  by destruct (data_event env).
Qed.

Lemma socket_send_data_results (env : send_script) (g : globals)
  (sfd : Socket) (msg : usbmuxd_msgtype) (tag_ : Z)
  (data : option ArrayBuffer) :
  let r := (socket_send_data env g sfd msg tag_ data).2 in
  r = Pending ∨ r = Resolved SendVoid
  ∨ r = Resolved (SendNumber (- EPERM UsbmuxdErrno)).
Proof.
  cbv zeta. unfold socket_send_data.
  destruct (socket_send_raw_data (header_write env)); simpl; [|auto].
  destruct (match data with Some d => 0 <? Z.of_nat (length d) | None => false end);
    [destruct (socket_send_raw_data (data_write env))|]; simpl;
    try destruct (data_event env); auto.
Qed.

(** X13.  The answer of the daemon never reaches the caller of a request:
    [socket_send_data] ends unsettled, with nothing, or with [-EPERM], and
    so do [socket_send_plist], [socket_list_devices] and [socket_listen];
    none of them ever yields a property list. *)
Theorem requests_never_yield_a_reply (env : send_script) (g : globals)
  (sfd : Socket) (tag_ : Z) (plist_object : PlistValue) :
  let ends (r : promise send_plist_result) :=
    r = Pending ∨ r = Resolved SentVoid
    ∨ r = Resolved (SentNumber (- EPERM UsbmuxdErrno)) in
  ends (socket_send_plist env g sfd tag_ plist_object).2 ∧
  ends (socket_list_devices env g sfd tag_).2 ∧
  ends (socket_listen env g sfd tag_).2.
Proof.
  cbv zeta.
  assert (Hp : ∀ o,
    let r := (socket_send_plist env g sfd tag_ o).2 in
    r = Pending ∨ r = Resolved SentVoid
    ∨ r = Resolved (SentNumber (- EPERM UsbmuxdErrno))).
  { intros o. cbv zeta. unfold socket_send_plist.
    pose proof (socket_send_data_results env g sfd MESSAGE_PLIST tag_
                  (Some (plist_build o))) as H.
    destruct (socket_send_data env g sfd MESSAGE_PLIST tag_
                (Some (plist_build o))) as [sfd' r].
    simpl in H. destruct H as [->|[->| ->]]; simpl; auto. }
  split; [apply Hp|]. split.
  - unfold socket_list_devices.
    destruct (create_plist_message "ListDevices"); [apply Hp|simpl; auto].
  - unfold socket_listen. destruct (_proto_version g =? 1).
    + destruct (create_plist_message "Listen"); [apply Hp|simpl; auto].
    + pose proof (socket_send_data_results env g sfd MESSAGE_LISTEN tag_ None)
        as H.
      destruct (socket_send_data env g sfd MESSAGE_LISTEN tag_ None)
        as [sfd' r].
      simpl in H. destruct H as [->|[->| ->]]; simpl; auto.
Qed.

(** X14.  The Listen request.  Under a version other than 1 it is the
    header alone: one chunk of sixteen bytes with 16 in the length field,
    the version, message type LISTEN (3) and the tag.  Under version 1 it is
    a PLIST (8) header whose length field counts the payload, followed by
    the bytes [plist.build] makes of the message for "Listen" exactly when
    the header was written and these bytes are not empty. *)
Theorem socket_listen_request (env : send_script) (g : globals)
  (sfd : Socket) (tag_ : Z) :
  (_proto_version g ≠ 1 →
   written (socket_listen env g sfd tag_).1 =
     written sfd ++
     [header_data (mk_header 16 (_proto_version g) 3 tag_)]) ∧
  (_proto_version g = 1 →
   ∀ listen_message, create_plist_message "Listen" = Some listen_message →
     let payload := plist_build listen_message in
     written (socket_listen env g sfd tag_).1 =
       written sfd ++
       header_data (mk_header (16 + Z.of_nat (length payload)) 1 8 tag_)
       :: (if socket_send_raw_data (header_write env)
              && negb (bool_decide (payload = []))
           then [payload] else [])).
Proof.
  unfold socket_listen. split.
  - intros Hv. apply Z.eqb_neq in Hv. rewrite Hv.
    unfold socket_send_data.
    destruct (socket_send_raw_data (header_write env)); simpl; [|done].
    by destruct (data_event env).
  - intros Hv m Hm. rewrite Hv, Hm. simpl.
    unfold socket_send_plist, socket_send_data, make_header. rewrite Hv.
    set (payload := plist_build m).
    destruct (socket_send_raw_data (header_write env)); simpl; [|done].
    destruct payload as [|b payload']; simpl.
    + by destruct (data_event env).
    + destruct (socket_send_raw_data (data_write env)); simpl;
        try destruct (data_event env); simpl; by rewrite <- ?app_assoc.
Qed.

(* ------------------------------------------------------------------ *)
(** *** Device records *)

(** X15.  [device_info_from_plist] reads five properties of a record and no
    other: adding or changing any other property does not change what it
    returns. *)
Theorem device_info_from_plist_ignores_other_keys (props : PlistObject)
  (key : string) (v : PlistValue) :
  key ∉ [ "DeviceID"; "ProductID"; "SerialNumber"; "ConnectionType";
          "NetworkAddress" ]%string →
  device_info_from_plist (<[key := v]> props) = device_info_from_plist props.
Proof.
  intros Hk. unfold device_info_from_plist.
  rewrite !lookup_insert_ne; [done|..];
    intros ->; apply Hk;
    repeat first [apply list_elem_of_here | apply list_elem_of_further].
Qed.

(** X16.  The loop over the DeviceList succeeds exactly when every element
    is accepted, and then yields the devices in the order of the list, after
    those it started with; it fails exactly when some element is refused. *)
Theorem device_list_from_plist_spec (plist_devlist : list PlistValue)
  (device_list result : list usbmuxd_device_info_t) :
  (device_list_from_plist plist_devlist device_list = Some result ↔
     ∃ devices,
       Forall2 (λ v d, device_info_from_plist (as_PlistObject v) = Some d)
         plist_devlist devices
       ∧ result = device_list ++ devices) ∧
  (device_list_from_plist plist_devlist device_list = None ↔
     Exists (λ v, device_info_from_plist (as_PlistObject v) = None)
       plist_devlist).
Proof.
  revert device_list.
  induction plist_devlist as [|v l IH]; intros device_list; simpl.
  - split; split.
    + intros [= <-]. exists []. split; [constructor|by rewrite app_nil_r].
    + intros (ds & H & ->). apply Forall2_nil_inv_l in H as ->.
      by rewrite app_nil_r.
    + done.
    + intros H. by apply Exists_nil in H.
  - destruct (device_info_from_plist (as_PlistObject v)) as [d|] eqn:Hv.
    + destruct (IH (device_list ++ [d])) as [IH1 IH2]. split; split.
      * intros H. apply IH1 in H as (ds & H & ->).
        exists (d :: ds). split; [by constructor|by rewrite <- app_assoc].
      * intros (ds & H & ->).
        apply Forall2_cons_inv_l in H as (d' & ds' & Hd & H & ->).
        assert (d' = d) as -> by congruence.
        apply IH1. exists ds'. split; [done|by rewrite <- app_assoc].
      * intros H. apply IH2 in H. by apply Exists_cons_tl.
      * intros H. apply Exists_cons in H as [H|H]; [congruence|].
        by apply IH2.
    + split; split; try done.
      * intros (ds & H & _).
        apply Forall2_cons_inv_l in H as (d' & ds' & Hd & _). congruence.
      * intros _. by apply Exists_cons_hd.
Qed.

(* ------------------------------------------------------------------ *)
(** *** Listings, one attempt *)

(** X19.  Under a version other than 1 a listing is one attempt: it opens at
    most one connection and never asks for another, it sends Listen and
    never ListDevices, and it leaves the version as it is. *)
Theorem legacy_listing_is_one_attempt (g : globals) (ses : session)
  (rest : list session) :
  _proto_version g ≠ 1 →
  let r := usbmuxd_get_device_list (ses :: rest) g in
  r = usbmuxd_get_device_list [ses] g ∧
  r.2 ≠ Reconnecting ∧
  _proto_version r.1.1 = _proto_version g ∧
  Forall (λ e, connection_of e = 0%nat ∧ is_list_devices_request e = false)
    r.1.2.
Proof.
  intros Hv. cbv zeta. unfold usbmuxd_get_device_list.
  destruct (legacy_attempt_is_final ses rest 0%nat g [] Hv) as (H1 & H2 & H3).
  split; [exact H1|]. split; [exact H2|]. split; [exact H3|].
  assert (Hreq : ∀ sfd,
    Forall (λ e, connection_of e = 0%nat ∧ is_list_devices_request e = false)
      (request_events 0 sfd)).
  { intros sfd. unfold request_events. apply Forall_app. split.
    - apply Forall_forall. intros e He.
      by apply list_elem_of_fmap in He as (chunk & -> & _).
    - destruct (destroyed sfd); repeat constructor. }
  assert (Hsent : ∀ sfd t,
    Forall (λ e, connection_of e = 0%nat ∧ is_list_devices_request e = false)
      (Opened 0 :: ListenRequest 0 t :: request_events 0 sfd)).
  { intros sfd t. repeat (constructor; [done|]). apply Hreq. }
  apply Z.eqb_neq in Hv.
  pose proof (connect_and_list_devices_cons ses rest 0%nat g []) as Hc.
  cbv zeta in Hc. rewrite Hv in Hc.
  destruct (connected ses); [|rewrite Hc; constructor].
  destruct (socket_listen _ _ _ _) as [sfd [[|o|z]|]];
    cbn [fst snd app] in Hc; try done.
  - destruct Hc as [-> _]. apply Hsent.
  - destruct Hc as (_ & _ & ->). cbn [fst snd].
    repeat (constructor; [done|]).
    apply Forall_app. split; [apply Hreq|repeat constructor].
  - destruct Hc as [-> _]. apply Hsent.
Qed.

(** X20.  A number in answer to Listen is what the call resolves with: the
    header has been handed to the socket, the socket is destroyed, the
    listing is not tried again and [_devices] keeps its contents. *)
Theorem listen_error_is_returned (g : globals) (ses : session)
  (rest : list session) (listen : Z) :
  connected ses = true →
  _proto_version g ≠ 1 →
  let g2 :=
    set_use_tag (_use_tag g + 1 + 1) (set_use_tag (_use_tag g + 1) g) in
  let q := socket_listen (request ses) g2 fresh_socket (_use_tag g + 1 + 1) in
  q.2 = Resolved (SentNumber listen) →
  usbmuxd_get_device_list (ses :: rest) g =
    (g2,
     [ Opened 0; ListenRequest 0 (_use_tag g + 1 + 1);
       Wrote 0 (header_data
                  (mk_header 16 (_proto_version g) 3 (_use_tag g + 1 + 1)));
       Destroyed 0 ],
     Settled (ErrorNumber listen)).
Proof.
  intros Hconn Hv. cbv zeta. intros Hq. unfold usbmuxd_get_device_list.
  pose proof (connect_and_list_devices_cons ses rest 0%nat g []) as Hc.
  pose proof (socket_listen_legacy_written (request ses)
                (set_use_tag (_use_tag g + 1 + 1)
                   (set_use_tag (_use_tag g + 1) g))
                fresh_socket (_use_tag g + 1 + 1) Hv) as Hwr.
  cbv zeta in Hc. apply Z.eqb_neq in Hv. rewrite Hconn, Hv, Hq in Hc.
  destruct Hc as (_ & Hd & ->). cbn [app].
  unfold request_events. by rewrite Hd, Hwr.
Qed.

(* ------------------------------------------------------------------ *)
(** *** Listings, over the whole script *)



(** X22.  Sockets.  When a listing resolves, or stops for want of another
    session, every socket it opened has been destroyed.  When it ends with
    the caller's promise unsettled, waiting for a reply or after an
    exception, a socket it opened is never destroyed. *)
Theorem listing_sockets (script : list session) (g : globals) :
  let r := usbmuxd_get_device_list script g in
  (unsettled r.2 = false → ∀ j, Opened j ∈ r.1.2 → Destroyed j ∈ r.1.2) ∧
  (unsettled r.2 = true → ∃ j, Opened j ∈ r.1.2 ∧ Destroyed j ∉ r.1.2).
Proof.
  cbv zeta. unfold usbmuxd_get_device_list.
  destruct (connect_and_list_devices_trace script 0%nat g [])
    as (evs & H1 & _ & _ & _ & _ & H6 & H7 & _).
  simpl in H1. rewrite H1. by split.
Qed.

(** X23.  A listing that resolves with an error number leaves [_devices] as
    it was, however many attempts it made. *)
Theorem listing_error_keeps_the_directory (script : list session)
  (g : globals) (z : Z) :
  (usbmuxd_get_device_list script g).2 = Settled (ErrorNumber z) →
  _devices (usbmuxd_get_device_list script g).1.1 = _devices g.
Proof.
  intros _. unfold usbmuxd_get_device_list.
  apply connect_and_list_devices_fields.
Qed.

(** X24.  A listing tells no subscriber: it invokes no callback and leaves
    the registry and [_watching] as they were. *)
Theorem listing_invokes_no_callback (script : list session) (g : globals) :
  let g' := (usbmuxd_get_device_list script g).1.1 in
  invoked g' = invoked g ∧
  _listener_map g' = _listener_map g ∧
  _watching g' = _watching g.
Proof.
  cbv zeta. unfold usbmuxd_get_device_list.
  destruct (connect_and_list_devices_fields script 0%nat g [])
    as (H1 & H2 & _ & H4 & _).
  by rewrite H1, H2, H4.
Qed.

(** X30.  On the wire.  Under version 1, a listing whose header can be
    written sends on its first connection a PLIST (8) header that carries
    version 1, the tag just drawn from [_use_tag] and the length of the whole
    frame, and then the payload: the bytes [plist.build] makes of the array
    of six strings.  The tag on the wire is the tag of the request. *)
Theorem listing_request_on_the_wire (g : globals) (ses : session)
  (rest : list session) :
  connected ses = true →
  _proto_version g = 1 →
  socket_send_raw_data (header_write (request ses)) = true →
  let payload :=
    plist_build
      (PlistArray
         [ PlistString "ClientVersionString"; PlistString "libusbmuxd";
           PlistString "MessageType"; PlistString "ListDevices";
           PlistString "kLibUSBMuxVersion"; PlistString "3" ]) in
  payload ≠ [] →
  ∃ evs,
    (usbmuxd_get_device_list (ses :: rest) g).1.2 =
      [ Opened 0; ListDevicesRequest 0 (_use_tag g + 1);
        Wrote 0 (header_data
                   (mk_header (16 + Z.of_nat (length payload)) 1 8
                      (_use_tag g + 1)));
        Wrote 0 payload ] ++ evs.
Proof.
  intros Hconn Hv Hw payload Hp. unfold usbmuxd_get_device_list.
  pose proof (connect_and_list_devices_cons ses rest 0%nat g []) as Hc.
  cbv zeta in Hc. rewrite Hconn, Hv in Hc. cbn [Z.eqb Pos.eqb app] in Hc.
  pose proof (socket_list_devices_request (request ses)
                (set_use_tag (_use_tag g + 1) g) fresh_socket
                (_use_tag g + 1) Hw Hp) as Hwr.
  fold payload in Hwr.
  assert (Hh : make_header (set_use_tag (_use_tag g + 1) g) MESSAGE_PLIST
                 (_use_tag g + 1) (Some payload)
               = mk_header (16 + Z.of_nat (length payload)) 1 8
                   (_use_tag g + 1)).
  { unfold make_header. simpl. by rewrite Hv. }
  rewrite Hh in Hwr. clear Hh.
  destruct (socket_list_devices _ _ _ _) as [sfd q]. cbn [fst snd] in Hc, Hwr.
  assert (Hev : ∃ more, request_events 0 sfd =
            [ Wrote 0 (header_data
                         (mk_header (16 + Z.of_nat (length payload)) 1 8
                            (_use_tag g + 1)));
              Wrote 0 payload ] ++ more).
  { unfold request_events. rewrite Hwr. simpl. eauto. }
  destruct Hev as [more Hev]. rewrite Hev in Hc.
  destruct q as [[|o|z]|]; try done.
  - destruct Hc as [-> _]. simpl. eauto.
  - destruct Hc as [_ ->].
    match goal with
    | |- context [connect_and_list_devices rest ?k' ?g1 ?tr'] =>
        destruct (connect_and_list_devices_trace rest k' g1 tr')
          as (evs & -> & _)
    end.
    simpl. rewrite <- !app_assoc. eauto.
  - destruct Hc as [-> _]. simpl. eauto.
Qed.

(* ------------------------------------------------------------------ *)
(** *** The registry over sequences of calls *)

(** X25.  After any sequence of calls, subscribing and then unsubscribing
    the handle obtained returns 0 and leaves the registry and [_devices] as
    they were before the two calls. *)
Theorem subscribe_then_unsubscribe (calls : list call)
  (cb : usbmuxd_event_cb_t) (ud : ArrayBuffer) :
  let g := (run calls initial_globals).1 in
  let g1 := (usbmuxd_events_subscribe cb ud g).1 in
  ∃ h,
    (usbmuxd_events_subscribe cb ud g).2 = inl h ∧
    (usbmuxd_events_unsubscribe h g1).2 = 0 ∧
    _listener_map (usbmuxd_events_unsubscribe h g1).1 = _listener_map g ∧
    _devices (usbmuxd_events_unsubscribe h g1).1 = _devices g.
Proof.
  intros g g1.
  destruct (run_fields calls initial_globals) as (_ & _ & Hwf & _).
  fold g in Hwf. specialize (Hwf handles_allocated_initial).
  assert (Hfree : _listener_map g !! allocated g = None).
  { destruct (_listener_map g !! allocated g) eqn:Hl; [|done].
    assert (allocated g < allocated g)%nat by (apply Hwf; eauto). lia. }
  exists (allocated g). unfold g1.
  rewrite usbmuxd_events_subscribe_eq. simpl.
  split; [done|]. unfold usbmuxd_events_unsubscribe. simpl.
  rewrite lookup_insert_eq. rewrite submit_events_eq. simpl.
  split; [done|]. split; [|done].
  rewrite delete_insert_eq. by apply delete_id.
Qed.

(** X26.  Unsubscribing a handle a second time returns [-EINVAL] and changes
    nothing, whether the first call found the handle or not. *)
Theorem unsubscribe_twice (g : globals)
  (context : usbmuxd_subscription_context_t) :
  let g1 := (usbmuxd_events_unsubscribe context g).1 in
  usbmuxd_events_unsubscribe context g1 = (g1, - EINVAL UsbmuxdErrno).
Proof.
  cbv zeta. unfold usbmuxd_events_unsubscribe.
  destruct (_listener_map g !! context) as [c|] eqn:Hreg; simpl.
  - rewrite submit_events_eq. simpl. by rewrite lookup_delete_eq.
  - by rewrite Hreg.
Qed.

Lemma run_registry_size (calls : list call) :
  EINVAL UsbmuxdErrno ≠ 0 →
  ∀ g : globals,
    handles_allocated g →
    (size (_listener_map (run calls g).1) + unsubscribed_of (run calls g).2
     = size (_listener_map g) + length (handles_of (run calls g).2))%nat.
Proof.
  intros Hne. induction calls as [|c calls IH]; intros g Hwf; [simpl; lia|].
  rewrite run_cons. simpl fst. simpl snd.
  destruct (perform_fields c g) as (_ & _ & Hwf' & _).
  specialize (IH (perform c g).1 (Hwf' Hwf)).
  destruct c as [cb ud|h|script|watching devices]; simpl in IH |- *.
  - rewrite usbmuxd_events_subscribe_eq in IH |- *. simpl in IH |- *.
    rewrite map_size_insert_None in IH; [lia|].
    destruct (_listener_map g !! allocated g) eqn:Hl; [|done].
    assert (allocated g < allocated g)%nat by (apply Hwf; eauto). lia.
  - unfold usbmuxd_events_unsubscribe in IH |- *.
    destruct (_listener_map g !! h) as [c|] eqn:Hreg; simpl in IH |- *.
    + rewrite submit_events_eq in IH |- *. simpl in IH |- *.
      rewrite map_size_delete_Some in IH by eauto.
      assert (size (_listener_map g) ≠ 0)%nat.
      { intros H0. apply map_size_empty_iff in H0. rewrite H0 in Hreg.
        by rewrite lookup_empty in Hreg. }
      lia.
    + destruct (- EINVAL UsbmuxdErrno) eqn:E; [lia|exact IH|exact IH].
  - unfold usbmuxd_get_device_list in IH |- *.
    pose proof (connect_and_list_devices_fields script 0%nat g []) as Hf.
    destruct (connect_and_list_devices script 0 g []) as [[g' tr] o].
    simpl in Hf, IH |- *. destruct Hf as (_ & Hm & _). by rewrite Hm in IH.
  - exact IH.
Qed.

(** X27.  With a non-zero EINVAL: after any sequence of calls the registry
    holds as many subscriptions as subscribe calls were made, less the
    unsubscribe calls that returned 0. *)
Theorem registry_counts_subscriptions (calls : list call) :
  EINVAL UsbmuxdErrno ≠ 0 →
  let r := run calls initial_globals in
  (size (_listener_map r.1) + unsubscribed_of r.2
   = length (handles_of r.2))%nat.
Proof.
  intros Hne r. unfold r.
  rewrite (run_registry_size calls Hne initial_globals
             handles_allocated_initial).
  simpl. by rewrite map_size_empty.
Qed.

Lemma subscriptions_of_app (l1 l2 : list call) :
  subscriptions_of (l1 ++ l2) = subscriptions_of l1 ++ subscriptions_of l2.
Proof.
  induction l1 as [|c l1 IH]; [done|].
  destruct c; simpl; by rewrite IH.
Qed.

Lemma devices_of_app (l1 l2 : list call) :
  devices_of (l1 ++ l2) = devices_of l1 ++ devices_of l2.
Proof.
  induction l1 as [|c l1 IH]; [done|].
  destruct c; simpl; rewrite IH; [done..|by rewrite app_assoc].
Qed.

Lemma delivered_as_subscribed_app (before after : list call)
  (i : callback_call) :
  delivered_as_subscribed before i →
  delivered_as_subscribed (before ++ after) i.
Proof.
  unfold delivered_as_subscribed.
  rewrite subscriptions_of_app, devices_of_app.
  intros [Hd Hi]. split; [apply elem_of_app; by left|].
  destruct (event (call_event i)); [| |done].
  - destruct Hi as (ud & Hud & Hin). exists ud. split; [done|].
    apply elem_of_app. by left.
  - destruct Hi as (Hud & ud & Hin). split; [done|]. exists ud.
    apply elem_of_app. by left.
Qed.

Lemma perform_stems_from (c : call) (before : list call) (g : globals) :
  stems_from before g → stems_from (before ++ [c]) (perform c g).1.
Proof.
  intros (Hinv & Hreg & Hdev).
  assert (Hinv' : Forall (delivered_as_subscribed (before ++ [c])) (invoked g)).
  { eapply Forall_impl; [exact Hinv|].
    intros i. apply delivered_as_subscribed_app. }
  assert (Hreg' : ∀ h x, _listener_map g !! h = Some x →
            (callback x, user_data x) ∈ subscriptions_of (before ++ [c])).
  { intros h x Hx. rewrite subscriptions_of_app. apply elem_of_app. left.
    by apply (Hreg h). }
  assert (Hdev' : ∀ d, d ∈ _devices g → d ∈ devices_of (before ++ [c])).
  { intros d Hd. rewrite devices_of_app. apply elem_of_app. left.
    by apply Hdev. }
  destruct c as [cb ud|h|script|watching devices]; simpl.
  - rewrite usbmuxd_events_subscribe_eq. unfold stems_from. simpl.
    assert (Hsub : (cb, ud) ∈ subscriptions_of (before ++ [events_subscribe cb ud])).
    { rewrite subscriptions_of_app. apply elem_of_app. right.
      apply list_elem_of_here. }
    split; [|split; [|exact Hdev']].
    + apply Forall_app. split; [exact Hinv'|].
      destruct (_watching g); [|constructor].
      apply Forall_forall. intros i Hi.
      apply list_elem_of_fmap in Hi as (d & -> & Hd).
      split; [by apply Hdev'|]. simpl. by exists ud.
    + intros h x. rewrite lookup_insert_Some.
      intros [[_ <-]|[_ Hx]]; [exact Hsub|by apply (Hreg' h)].
  - unfold usbmuxd_events_unsubscribe.
    destruct (_listener_map g !! h) as [x|] eqn:Hx; simpl; [|done].
    rewrite submit_events_eq. unfold stems_from. simpl.
    split; [|split; [|exact Hdev']].
    + apply Forall_app. split; [exact Hinv'|].
      apply Forall_forall. intros i Hi.
      apply list_elem_of_fmap in Hi as (d & -> & Hd).
      split; [by apply Hdev'|]. simpl. split; [done|].
      exists (user_data x). by apply (Hreg' h).
    + intros h' x'. rewrite lookup_delete_Some. intros [_ Hx'].
      by apply (Hreg' h').
  - unfold usbmuxd_get_device_list.
    pose proof (connect_and_list_devices_fields script 0%nat g []) as Hf.
    destruct (connect_and_list_devices script 0 g []) as [[g' tr] o].
    simpl in Hf |- *. destruct Hf as (_ & Hm & _ & Hi & _ & Hd).
    unfold stems_from. by rewrite Hm, Hi, Hd.
  - split; [exact Hinv'|]. split; [exact Hreg'|].
    intros d Hd. rewrite devices_of_app. apply elem_of_app. right.
    simpl. by rewrite app_nil_r.
Qed.

Lemma run_stems_from (calls : list call) :
  ∀ (before : list call) (g : globals),
    stems_from before g → stems_from (before ++ calls) (run calls g).1.
Proof.
  induction calls as [|c calls IH]; intros before g H.
  - by rewrite app_nil_r.
  - rewrite run_cons. cbn [fst].
    rewrite cons_middle, app_assoc. apply IH. by apply perform_stems_from.
Qed.

(** The calls of the three functions alone leave the library as quiet as it
    starts. *)
Lemma perform_quiet (c : call) (g : globals) :
  is_client_call c = true →
  _watching g = false → _devices g = [] → invoked g = [] →
  _watching (perform c g).1 = false ∧ _devices (perform c g).1 = []
  ∧ invoked (perform c g).1 = [].
Proof.
  intros Hc Hw Hd Hi.
  destruct c as [cb ud|h|script|watching devices]; simpl; [| | |done].
  - rewrite usbmuxd_events_subscribe_eq. simpl. by rewrite Hw, Hi.
  - unfold usbmuxd_events_unsubscribe.
    destruct (_listener_map g !! h) as [x|]; simpl; [|done].
    rewrite submit_events_eq. simpl. by rewrite Hd, Hi.
  - unfold usbmuxd_get_device_list.
    pose proof (connect_and_list_devices_fields script 0%nat g []) as Hf.
    destruct (connect_and_list_devices script 0 g []) as [[g' tr] o].
    simpl in Hf |- *. destruct Hf as (-> & _ & _ & -> & _ & ->). done.
Qed.

(** X28.  What callbacks are given.  After any sequence of calls, every
    invocation made carried either a UE_DEVICE_ADD event, for a callback
    that was subscribed and with the user data it was subscribed with, or a
    UE_DEVICE_REMOVE event, for a callback that was subscribed and with
    [undefined] in place of the user data; the device of the event was made
    known by the listen session; UE_DEVICE_PAIRED is never delivered.  When
    the calls are those of the three functions alone, [_watching] is never
    set, [_devices] stays empty and no callback is ever invoked. *)
Theorem callbacks_delivered (calls : list call) :
  let g := (run calls initial_globals).1 in
  Forall (delivered_as_subscribed calls) (invoked g) ∧
  (forallb is_client_call calls = true →
   _watching g = false ∧ _devices g = [] ∧ invoked g = []).
Proof.
  cbv zeta. split.
  - assert (H0 : stems_from [] initial_globals).
    { split; [constructor|]. split.
      - intros h c Hc. simpl in Hc. by rewrite lookup_empty in Hc.
      - intros d Hd. simpl in Hd. by apply elem_of_nil in Hd. }
    apply (run_stems_from calls) in H0. simpl in H0. apply H0.
  - assert (Hgen : ∀ g,
      forallb is_client_call calls = true →
      _watching g = false → _devices g = [] → invoked g = [] →
      _watching (run calls g).1 = false ∧ _devices (run calls g).1 = []
      ∧ invoked (run calls g).1 = []).
    { induction calls as [|c calls IH]; intros g Hc Hw Hd Hi; [done|].
      rewrite run_cons. cbn [fst]. simpl in Hc.
      apply andb_prop in Hc as [Hc Hcs].
      destruct (perform_quiet c g Hc Hw Hd Hi) as (Hw' & Hd' & Hi').
      by apply IH. }
    intros Hc. by apply Hgen.
Qed.

(* ------------------------------------------------------------------ *)
(** *** The version fallback *)

Lemma request_events_no_listen (k : nat) (sfd : Socket) :
  Forall (λ e, is_listen_request e = false) (request_events k sfd).
Proof.
  unfold request_events. apply Forall_app. split.
  - apply Forall_forall. intros e He.
    by apply list_elem_of_fmap in He as (chunk & -> & _).
  - destruct (destroyed sfd); repeat constructor.
Qed.

(** When [-EPERM] is not BADVERSION, a listing that starts at version 1
    stays there and sends no Listen request. *)
Lemma connect_and_list_devices_version (script : list session) :
  - EPERM UsbmuxdErrno ≠ usbmuxd_result_value RESULT_BADVERSION →
  ∀ (k : nat) (g : globals) (tr : list socket_event),
    _proto_version g = 1 →
    let r := connect_and_list_devices script k g tr in
    _proto_version r.1.1 = 1 ∧
    (Forall (λ e, is_listen_request e = false) tr →
     Forall (λ e, is_listen_request e = false) r.1.2).
Proof.
  intros Hne. induction script as [|ses script IH]; intros k g tr Hv; [done|].
  cbv zeta.
  assert (Hsent : ∀ t sfd,
    Forall (λ e, is_listen_request e = false) tr →
    Forall (λ e, is_listen_request e = false)
      (tr ++ Opened k :: ListDevicesRequest k t :: request_events k sfd)).
  { intros t sfd Htr. apply Forall_app. split; [exact Htr|].
    repeat (constructor; [done|]). apply request_events_no_listen. }
  pose proof (connect_and_list_devices_cons ses script k g tr) as Hc.
  cbv zeta in Hc. rewrite Hv in Hc. cbn [Z.eqb Pos.eqb] in Hc.
  destruct (connected ses); [|by rewrite Hc].
  destruct (socket_list_devices _ _ _ _) as [sfd [[|o|z]|]];
    cbn [fst snd] in Hc; try done.
  - destruct Hc as [-> _]. split; [exact Hv|apply Hsent].
  - destruct Hc as [-> ->]. apply Z.eqb_neq in Hne. rewrite Hne.
    match goal with
    | |- context [connect_and_list_devices script ?k' ?g1 ?tr'] =>
        destruct (IH k' g1 tr' Hv) as [H1 H2]
    end.
    split; [exact H1|]. intros Htr. apply H2.
    apply Forall_app. split; [by apply Hsent|repeat constructor].
  - destruct Hc as [-> _]. split; [exact Hv|apply Hsent].
Qed.

(** X29.  The version fallback cannot happen.  A request never yields the
    daemon's result code, and the one number it yields is [-EPERM]: when
    that is not BADVERSION, [_proto_version] is 1 after any sequence of
    calls, and no listing ever sends a Listen request. *)
Theorem version_fallback_is_unreachable (calls : list call)
  (script : list session) :
  - EPERM UsbmuxdErrno ≠ usbmuxd_result_value RESULT_BADVERSION →
  let g := (run calls initial_globals).1 in
  _proto_version g = 1 ∧
  Forall (λ e, is_listen_request e = false)
    (usbmuxd_get_device_list script g).1.2.
Proof.
  intros Hne. cbv zeta.
  assert (Hrun : ∀ g, _proto_version g = 1 →
                      _proto_version (run calls g).1 = 1).
  { induction calls as [|c calls IH]; intros g Hv; [done|].
    rewrite run_cons. cbn [fst]. apply IH.
    destruct c as [cb ud|h|script'|watching devices]; simpl.
    - by rewrite usbmuxd_events_subscribe_eq.
    - pose proof (usbmuxd_events_unsubscribe_fields h g) as Hf.
      destruct (usbmuxd_events_unsubscribe h g) as [g' r].
      simpl in Hf |- *. destruct Hf as (_ & _ & -> & _). exact Hv.
    - unfold usbmuxd_get_device_list.
      pose proof (connect_and_list_devices_version script' Hne 0%nat g [] Hv)
        as [Hf _].
      by destruct (connect_and_list_devices script' 0 g []) as [[g' tr] o].
    - exact Hv. }
  split; [by apply Hrun|].
  unfold usbmuxd_get_device_list.
  apply connect_and_list_devices_version; [exact Hne|by apply Hrun|constructor].
Qed.

End Usbmuxd.

(* ================================================================== *)
(** ** The properties at sample inputs *)

(** A record with the four properties of a USB device is accepted. *)
Lemma device_info_from_plist_spec_witness :
  device_info_from_plist sample_record = Some sample_device.
Proof.
  apply (device_info_from_plist_spec sample_record sample_device).
  by apply accepted_usb.
Defined.

(** A PLIST request with tag 42 and a four-byte payload, at version 1. *)
Lemma socket_send_data_frame_witness :
  ∃ header : Uint8Array,
    length header = 16%nat ∧
    header = uint32_be 20 ++ uint32_be 1 ++ uint32_be 8 ++ uint32_be 42 ∧
    getUint32 0 header = Some 20 ∧
    getUint32 4 header = Some 1 ∧
    getUint32 8 header = Some 8 ∧
    getUint32 12 header = Some 42 ∧
    written
      (socket_send_data posix_errno
         (mk_send_script (mk_write true true) (mk_write true true) true)
         initial_globals fresh_socket MESSAGE_PLIST 42 (Some [1; 2; 3; 4])).1
      = [header; [1; 2; 3; 4]] ∧
    (true = true →
     concat
       (written
          (socket_send_data posix_errno
             (mk_send_script (mk_write true true) (mk_write true true) true)
             initial_globals fresh_socket MESSAGE_PLIST 42
             (Some [1; 2; 3; 4])).1)
       = header ++ [1; 2; 3; 4]).
Proof.
  apply (socket_send_data_frame posix_errno
           (mk_send_script (mk_write true true) (mk_write true true) true)
           initial_globals fresh_socket MESSAGE_PLIST 42 (Some [1; 2; 3; 4]));
    simpl; lia.
Defined.


(** Subscribing and unsubscribing while a listen session is active and one
    device is known. *)
Lemma subscribe_unsubscribe_replay_witness :
  let g1 := (usbmuxd_events_subscribe 5%nat [1; 2] sample_globals).1 in
  let g3 := (usbmuxd_events_unsubscribe posix_errno 0%nat sample_globals).1 in
  let adds := drop 0 (invoked g1) in
  let removes := drop 0 (invoked g3) in
  adds = [mk_call 5%nat (mk_event UE_DEVICE_ADD sample_device) (Some [1; 2])] ∧
  removes = [mk_call 5%nat (mk_event UE_DEVICE_REMOVE sample_device) None] ∧
  length adds = 1%nat ∧
  length removes = 1%nat ∧
  (true = true → 1%nat = 1%nat → length adds = length removes).
Proof.
  apply (subscribe_unsubscribe_replay posix_errno sample_globals
           sample_globals 5%nat [1; 2] 0%nat).
  reflexivity.
Defined.

(** The daemon answers the ListDevices request of the first listing. *)
Lemma list_devices_reply_is_never_read_witness :
  usbmuxd_get_device_list posix_errno sample_plist_build sample_plist_decode
    [answers; answers] initial_globals
  = (set_use_tag 1 initial_globals,
     [ Opened 0; ListDevicesRequest 0 1;
       Wrote 0 [0; 0; 0; 19; 0; 0; 0; 1; 0; 0; 0; 8; 0; 0; 0; 1];
       Wrote 0 [60; 112; 62] ],
     Unhandled TypeError).
Proof.
  exact (proj1
           (proj1
              (list_devices_reply_is_never_read posix_errno sample_plist_build
                 sample_plist_decode initial_globals answers [answers]
                 eq_refl eq_refl)
              eq_refl)).
Defined.


(** The payload of the first request cannot be written, the daemon answers
    the second; one device is stored. *)
Lemma listing_reports_no_decode_error_witness :
  let r :=
    usbmuxd_get_device_list posix_errno sample_plist_build sample_plist_decode
      [payload_fails; answers] sample_globals in
  (∀ z, r.2 ≠ Settled (ErrorNumber z)) ∧
  (∀ device_list, r.2 ≠ Settled (DeviceArray device_list)) ∧
  _devices r.1.1 = [sample_device].
Proof.
  apply (listing_reports_no_decode_error posix_errno sample_plist_build
           sample_plist_decode sample_globals [payload_fails; answers]).
  repeat constructor.
Defined.

(** C3, a counterexample.  One device is known and no listen session is
    active.  A callback that subscribes and then unsubscribes receives no
    ADD event and one REMOVE event, over the same device. *)
Lemma replay_symmetry_counterexample :
  let s := usbmuxd_events_subscribe 5%nat [1; 2] quiet_globals in
  let u := usbmuxd_events_unsubscribe posix_errno 0%nat s.1 in
  s.2 = inl 0%nat ∧ u.2 = 0 ∧
  _devices quiet_globals = [sample_device] ∧
  _devices s.1 = [sample_device] ∧
  length (events_to UE_DEVICE_ADD 5%nat (invoked u.1)) = 0%nat ∧
  length (events_to UE_DEVICE_REMOVE 5%nat (invoked u.1)) = 1%nat ∧
  length (events_to UE_DEVICE_ADD 5%nat (invoked u.1))
    ≠ length (events_to UE_DEVICE_REMOVE 5%nat (invoked u.1)).
Proof. by vm_compute. Qed.

(* ================================================================== *)
(** ** The further properties at sample inputs *)

(** A record without a SerialNumber, with errors printed. *)
Lemma device_info_from_plist_logs_every_failure_witness :
  let r := device_info_from_plist_logged 0 malformed_record [] in
  r.1 = device_info_from_plist malformed_record ∧
  ∃ lines : console,
    r.2 = [] ++ lines ∧
    length lines = failed_tests malformed_record ∧
    (is_Some r.1 ↔ lines = []) ∧
    Forall (λ line, head line = Some "[libusbmuxd]"%string) lines.
Proof.
  apply (device_info_from_plist_logs_every_failure 0 malformed_record []).
  lia.
Defined.

(** A record with a property the function does not know. *)
Lemma device_info_from_plist_ignores_other_keys_witness :
  device_info_from_plist (<["LocationID"%string := PlistNumber (Num 1)]> sample_record)
  = device_info_from_plist sample_record.
Proof.
  apply device_info_from_plist_ignores_other_keys.
  apply (bool_decide_unpack _). by vm_compute.
Defined.

(** A listing after the downgrade, with a second session in the script. *)
Lemma legacy_listing_is_one_attempt_witness :
  let r :=
    usbmuxd_get_device_list posix_errno sample_plist_build sample_plist_decode
      [stays_silent; answers] legacy_globals in
  r = usbmuxd_get_device_list posix_errno sample_plist_build
        sample_plist_decode [stays_silent] legacy_globals ∧
  r.2 ≠ Reconnecting ∧
  _proto_version r.1.1 = _proto_version legacy_globals ∧
  Forall (λ e, connection_of e = 0%nat ∧ is_list_devices_request e = false)
    r.1.2.
Proof.
  apply (legacy_listing_is_one_attempt posix_errno sample_plist_build
           sample_plist_decode legacy_globals stays_silent [answers]).
  discriminate.
Defined.

(** The header of the Listen request cannot be written. *)
Lemma listen_error_is_returned_witness :
  usbmuxd_get_device_list posix_errno sample_plist_build sample_plist_decode
    [write_fails] legacy_globals
  = (set_use_tag 2 (set_use_tag 1 legacy_globals),
     [ Opened 0; ListenRequest 0 2;
       Wrote 0 [0; 0; 0; 16; 0; 0; 0; 0; 0; 0; 0; 3; 0; 0; 0; 2];
       Destroyed 0 ],
     Settled (ErrorNumber (-1))).
Proof.
  apply (listen_error_is_returned posix_errno sample_plist_build
           sample_plist_decode legacy_globals write_fails [] (-1));
    [reflexivity|discriminate|reflexivity].
Defined.

(** Nobody listens on the socket file, while one device is stored. *)
Lemma listing_error_keeps_the_directory_witness :
  _devices
    (usbmuxd_get_device_list posix_errno sample_plist_build
       sample_plist_decode [refuses_connection] sample_globals).1.1
  = [sample_device].
Proof.
  apply (listing_error_keeps_the_directory posix_errno sample_plist_build
           sample_plist_decode [refuses_connection] sample_globals (-2)).
  reflexivity.
Defined.

(** Two subscriptions, one of them unsubscribed twice. *)
Lemma registry_counts_subscriptions_witness :
  let r :=
    run posix_errno sample_plist_build sample_plist_decode
      [ events_subscribe 5%nat [1]; events_subscribe 5%nat [1];
        events_unsubscribe 0%nat; events_unsubscribe 0%nat ]
      initial_globals in
  (size (_listener_map r.1) + unsubscribed_of r.2
   = length (handles_of r.2))%nat.
Proof.
  apply (registry_counts_subscriptions posix_errno sample_plist_build
           sample_plist_decode
           [ events_subscribe 5%nat [1]; events_subscribe 5%nat [1];
             events_unsubscribe 0%nat; events_unsubscribe 0%nat ]).
  discriminate.
Defined.

(** Two listings whose requests cannot be written, then one that is
    answered. *)
Lemma version_fallback_is_unreachable_witness :
  let g :=
    (run posix_errno sample_plist_build sample_plist_decode
       [ get_device_list [write_fails; payload_fails; refuses_connection];
         get_device_list [write_fails] ]
       initial_globals).1 in
  _proto_version g = 1 ∧
  Forall (λ e, is_listen_request e = false)
    (usbmuxd_get_device_list posix_errno sample_plist_build
       sample_plist_decode [answers] g).1.2.
Proof.
  apply (version_fallback_is_unreachable posix_errno sample_plist_build
           sample_plist_decode
           [ get_device_list [write_fails; payload_fails; refuses_connection];
             get_device_list [write_fails] ]
           [answers]).
  discriminate.
Defined.

(** The daemon answers the request of a listing made at tag 3. *)
Lemma listing_request_on_the_wire_witness :
  ∃ evs,
    (usbmuxd_get_device_list posix_errno sample_plist_build
       sample_plist_decode [answers] sample_globals).1.2 =
      [ Opened 0; ListDevicesRequest 0 4;
        Wrote 0 [0; 0; 0; 19; 0; 0; 0; 1; 0; 0; 0; 8; 0; 0; 0; 4];
        Wrote 0 [60; 112; 62] ] ++ evs.
Proof.
  apply (listing_request_on_the_wire posix_errno sample_plist_build
           sample_plist_decode sample_globals answers []);
    [reflexivity|reflexivity|reflexivity|discriminate].
Defined.
